(** * NLocal layer templates (torchquantum/layer/nlocal.py)

    A shallow embedding of the [NLocal] family of layer templates and the
    proofs of its specification.  The Python classes are modelled as
    computations in a state-and-exception monad:

    - the state holds the attributes of the object [self], the dict
      objects that parameter mappings refer to (so that the default
      argument dictionaries, created once and shared by every call, are
      distinguishable from freshly built literals), and the state of the
      external collaborators (the layer classes of [tq.layers]);
    - an exception aborts the computation and is propagated, as in Python.
*)

From stdpp Require Import gmap strings list.

Open Scope Z_scope.

(** ** Data model *)

(** Gate operations are opaque handles; the ones named by the presets are
    listed, any other one is [OtherGate]. *)
Inductive gate : Type :=
| RY | RZ | RXX | RYY | CNOT
| OtherGate (name : string).

(** Values of keyword arguments. *)
Inductive value : Type :=
| VBool (b : bool)
| VInt (z : Z)
| VStr (s : string).

(** A dict with string keys, as expanded by [**params]. *)
Abbreviation kwargs := (gmap string value).

(** The layer classes of [tq.layers] used by the file, and any other class
    a caller may pass. *)
Inductive layer_class : Type :=
| Op1QAllLayer | Op2QAllLayer | Op2QDenseLayer
| UserLayer (name : string).

(** What the [rotation_layer] / [entanglement_layer] arguments may hold: a
    [str] (a topology name) or a class. *)
Inductive pyobj : Type :=
| Str (s : string)
| Class (c : layer_class).

Inductive exn : Type :=
| TypeError (msg : string)
| Raised (name : string).

(** References to dict objects.  The three default-argument dictionaries
    ([rotation_layer_params: dict = {}] and
    [entanglement_layer_params: dict = {}] of [NLocal.__init__],
    [entanglement_layer_params: dict = {}] of [TwoLocal.__init__]) are
    created once, when the functions are defined; every other dict is
    created at run time. *)
Inductive dict_ref : Type :=
| NLocal_rotation_default
| NLocal_entanglement_default
| TwoLocal_entanglement_default
| Allocated (i : nat).

Record heap : Type := Heap {
  nlocal_rotation_dict : kwargs;
  nlocal_entanglement_dict : kwargs;
  twolocal_entanglement_dict : kwargs;
  allocated : list kwargs
}.

Definition heap_lookup (h : heap) (r : dict_ref) : kwargs :=
  match r with
  | NLocal_rotation_default => nlocal_rotation_dict h
  | NLocal_entanglement_default => nlocal_entanglement_dict h
  | TwoLocal_entanglement_default => twolocal_entanglement_dict h
  | Allocated i => default ∅ (allocated h !! i)
  end.

Definition heap_alloc (h : heap) (d : kwargs) : dict_ref * heap :=
  (Allocated (length (allocated h)),
   Heap (nlocal_rotation_dict h) (nlocal_entanglement_dict h)
        (twolocal_entanglement_dict h) (allocated h ++ [d])).

(** A reference to a dict object that exists. *)
Definition live (h : heap) (r : dict_ref) : Prop :=
  match r with
  | Allocated i => (i < length (allocated h))%nat
  | _ => True
  end.

(** [entanglement_layer == "linear"]: a class is never equal to a str. *)
Definition py_eq_str (o : pyobj) (s : string) : bool :=
  match o with
  | Str t => String.eqb t s
  | Class _ => false
  end.

(** ** The state-and-exception monad *)

Definition ST (S A : Type) : Type := S → (exn + A) * S.

Definition ret {S A} (a : A) : ST S A := λ σ, (inr a, σ).

Definition bind {S A B} (m : ST S A) (k : A → ST S B) : ST S B :=
  λ σ, match m σ with
       | (inr a, σ') => k a σ'
       | (inl e, σ') => (inl e, σ')
       end.

Definition raise {S A} (e : exn) : ST S A := λ σ, (inl e, σ).

Notation "x <- m ;; k" := (bind m (λ x, k))
  (at level 100, m at next level, right associativity).
Notation "m ;;; k" := (bind m (λ _, k))
  (at level 100, right associativity).

Section Model.

(** The external collaborators: constructed layers, the state they may
    read and write (parameter initialisation, registries, ...), the layer
    constructors, and the base class's reading of the architecture
    descriptor. *)
Context {Block World Arch : Type}.
Context (construct :
           layer_class → gate → Z → kwargs → World → (exn + Block) * World).
Context (wire_count : option Arch → exn + Z).

(** Attributes of an [NLocal] object. *)
Record NLocal : Type := MkNLocal {
  rotation_ops : list gate;
  rotation_layer : pyobj;
  rotation_layer_params : dict_ref;
  entanglement_ops : list gate;
  entanglement_layer : pyobj;
  entanglement_layer_params : dict_ref;
  initial_circuit : option Block;
  skip_final_rotation_layer : bool;
  reps : Z;
  n_wires : Z;
  layers_all : list Block
}.

Record state : Type := MkState {
  self : NLocal;
  dicts : heap;
  world : World
}.

Definition M (A : Type) : Type := ST state A.

Definition getattr {A} (f : NLocal → A) : M A := λ σ, (inr (f (self σ)), σ).

Definition setattr (f : NLocal → NLocal) : M unit :=
  λ σ, (inr tt, MkState (f (self σ)) (dicts σ) (world σ)).

Definition deref (r : dict_ref) : M kwargs :=
  λ σ, (inr (heap_lookup (dicts σ) r), σ).

(** Evaluation of a dict literal. *)
Definition new_dict (d : kwargs) : M dict_ref :=
  λ σ, let '(r, h) := heap_alloc (dicts σ) d in
       (inr r, MkState (self σ) h (world σ)).

(** A computation of the external collaborators touches their own state
    only. *)
Definition external {A} (c : World → (exn + A) * World) : M A :=
  λ σ, let '(r, w) := c (world σ) in (r, MkState (self σ) (dicts σ) w).

(** Attribute assignments [self.x = v]. *)
Definition set_rotation_ops v (s : NLocal) : NLocal :=
  MkNLocal v (rotation_layer s) (rotation_layer_params s)
    (entanglement_ops s) (entanglement_layer s) (entanglement_layer_params s)
    (initial_circuit s) (skip_final_rotation_layer s) (reps s)
    (n_wires s) (layers_all s).
Definition set_rotation_layer v (s : NLocal) : NLocal :=
  MkNLocal (rotation_ops s) v (rotation_layer_params s)
    (entanglement_ops s) (entanglement_layer s) (entanglement_layer_params s)
    (initial_circuit s) (skip_final_rotation_layer s) (reps s)
    (n_wires s) (layers_all s).
Definition set_rotation_layer_params v (s : NLocal) : NLocal :=
  MkNLocal (rotation_ops s) (rotation_layer s) v
    (entanglement_ops s) (entanglement_layer s) (entanglement_layer_params s)
    (initial_circuit s) (skip_final_rotation_layer s) (reps s)
    (n_wires s) (layers_all s).
Definition set_entanglement_ops v (s : NLocal) : NLocal :=
  MkNLocal (rotation_ops s) (rotation_layer s) (rotation_layer_params s)
    v (entanglement_layer s) (entanglement_layer_params s)
    (initial_circuit s) (skip_final_rotation_layer s) (reps s)
    (n_wires s) (layers_all s).
Definition set_entanglement_layer v (s : NLocal) : NLocal :=
  MkNLocal (rotation_ops s) (rotation_layer s) (rotation_layer_params s)
    (entanglement_ops s) v (entanglement_layer_params s)
    (initial_circuit s) (skip_final_rotation_layer s) (reps s)
    (n_wires s) (layers_all s).
Definition set_entanglement_layer_params v (s : NLocal) : NLocal :=
  MkNLocal (rotation_ops s) (rotation_layer s) (rotation_layer_params s)
    (entanglement_ops s) (entanglement_layer s) v
    (initial_circuit s) (skip_final_rotation_layer s) (reps s)
    (n_wires s) (layers_all s).
Definition set_initial_circuit v (s : NLocal) : NLocal :=
  MkNLocal (rotation_ops s) (rotation_layer s) (rotation_layer_params s)
    (entanglement_ops s) (entanglement_layer s) (entanglement_layer_params s)
    v (skip_final_rotation_layer s) (reps s)
    (n_wires s) (layers_all s).
Definition set_skip_final_rotation_layer v (s : NLocal) : NLocal :=
  MkNLocal (rotation_ops s) (rotation_layer s) (rotation_layer_params s)
    (entanglement_ops s) (entanglement_layer s) (entanglement_layer_params s)
    (initial_circuit s) v (reps s)
    (n_wires s) (layers_all s).
Definition set_reps v (s : NLocal) : NLocal :=
  MkNLocal (rotation_ops s) (rotation_layer s) (rotation_layer_params s)
    (entanglement_ops s) (entanglement_layer s) (entanglement_layer_params s)
    (initial_circuit s) (skip_final_rotation_layer s) v
    (n_wires s) (layers_all s).
Definition set_n_wires v (s : NLocal) : NLocal :=
  MkNLocal (rotation_ops s) (rotation_layer s) (rotation_layer_params s)
    (entanglement_ops s) (entanglement_layer s) (entanglement_layer_params s)
    (initial_circuit s) (skip_final_rotation_layer s) (reps s)
    v (layers_all s).
Definition set_layers_all v (s : NLocal) : NLocal :=
  MkNLocal (rotation_ops s) (rotation_layer s) (rotation_layer_params s)
    (entanglement_ops s) (entanglement_layer s) (entanglement_layer_params s)
    (initial_circuit s) (skip_final_rotation_layer s) (reps s)
    (n_wires s) v.

(** *** Calling a layer class *)

(** [f(op=op, n_wires=n, **kw)] once [kw] has been read: the keyword
    arguments are merged first (a key of [kw] that repeats an explicit
    keyword is a [TypeError]), then the callee is called (a [str] is not
    callable), and a class runs its external constructor. *)
Definition invoke (f : pyobj) (op : gate) (n : Z) (kw : kwargs)
  : World → (exn + Block) * World :=
  λ w,
    match kw !! "op", kw !! "n_wires" with
    | None, None =>
        match f with
        | Str _ => (inl (TypeError "'str' object is not callable"), w)
        | Class c => construct c op n kw w
        end
    | _, _ =>
        (inl (TypeError "got multiple values for keyword argument"), w)
    end.

Definition call (f : pyobj) (op : gate) (n : Z) (params : dict_ref) : M Block :=
  kw <- deref params ;;
  external (invoke f op n kw).

(** *** NLocal *)

(** [NLocal.build_rotation_block]: the [for] loop over
    [self.rotation_ops], with the local list [rotation_layers]. *)
Fixpoint rotation_loop (ops : list gate) (rotation_layers : list Block)
  : M (list Block) :=
  match ops with
  | [] => ret rotation_layers
  | rot :: ops' =>
      f <- getattr rotation_layer ;;
      n <- getattr n_wires ;;
      p <- getattr rotation_layer_params ;;
      b <- call f rot n p ;;
      rotation_loop ops' (rotation_layers ++ [b])
  end.

Definition build_rotation_block : M (list Block) :=
  ops <- getattr rotation_ops ;;
  rotation_loop ops [].

(** [NLocal.build_entanglement_block]. *)
Fixpoint entanglement_loop (ops : list gate) (entanglement_layers : list Block)
  : M (list Block) :=
  match ops with
  | [] => ret entanglement_layers
  | entanglement :: ops' =>
      f <- getattr entanglement_layer ;;
      n <- getattr n_wires ;;
      p <- getattr entanglement_layer_params ;;
      b <- call f entanglement n p ;;
      entanglement_loop ops' (entanglement_layers ++ [b])
  end.

Definition build_entanglement_block : M (list Block) :=
  ops <- getattr entanglement_ops ;;
  entanglement_loop ops [].

(** [for _ in range(self.reps)]: [range] of a non-positive number is
    empty. *)
Fixpoint reps_loop (n : nat) (layers_all : list Block) : M (list Block) :=
  match n with
  | O => ret layers_all
  | S n' =>
      rot <- build_rotation_block ;;
      ent <- build_entanglement_block ;;
      reps_loop n' ((layers_all ++ rot) ++ ent)
  end.

(** [NLocal.build_layers]. *)
Definition build_layers : M (list Block) :=
  ic <- getattr initial_circuit ;;
  let layers_all :=
    match ic with
    | Some c => [] ++ [c]
    | None => []
    end in
  r <- getattr reps ;;
  layers_all <- reps_loop (Z.to_nat r) layers_all ;;
  skip <- getattr skip_final_rotation_layer ;;
  if negb skip
  then rot <- build_rotation_block ;; ret (layers_all ++ rot)
  else ret layers_all.

(** Modelled from the spec: [LayerTemplate0.__init__], the constructor of
    the base class, is not part of this file.  The base template lifecycle
    derives the wire count from the architecture descriptor, and the build
    is performed eagerly inside the call that constructs a template; the
    result is the template's [layers_all]. *)
Definition LayerTemplate0_init (arch : option Arch) : M unit :=
  match wire_count arch with
  | inl e => raise e
  | inr n =>
      setattr (set_n_wires n) ;;;
      layers <- build_layers ;;
      setattr (set_layers_all layers)
  end.

(** [NLocal.__init__].  An argument that the caller may omit is an
    [option]; [None] selects the default of the signature. *)
Definition NLocal_init
    (rotation_ops : list gate) (entanglement_ops : list gate)
    (arch : option Arch)
    (rotation_layer entanglement_layer : option pyobj)
    (reps : option Z)
    (rotation_layer_params entanglement_layer_params : option dict_ref)
    (initial_circuit : option Block)
    (skip_final_rotation_layer : option bool) : M unit :=
  let rotation_layer := default (Class Op1QAllLayer) rotation_layer in
  let entanglement_layer := default (Class Op2QAllLayer) entanglement_layer in
  let reps := default 1 reps in
  let rotation_layer_params :=
    default NLocal_rotation_default rotation_layer_params in
  let entanglement_layer_params :=
    default NLocal_entanglement_default entanglement_layer_params in
  let skip_final_rotation_layer := default false skip_final_rotation_layer in
  setattr (set_rotation_ops rotation_ops) ;;;
  setattr (set_rotation_layer rotation_layer) ;;;
  setattr (set_rotation_layer_params rotation_layer_params) ;;;
  setattr (set_entanglement_ops entanglement_ops) ;;;
  setattr (set_entanglement_layer entanglement_layer) ;;;
  setattr (set_entanglement_layer_params entanglement_layer_params) ;;;
  setattr (set_initial_circuit initial_circuit) ;;;
  setattr (set_skip_final_rotation_layer skip_final_rotation_layer) ;;;
  setattr (set_reps reps) ;;;
  LayerTemplate0_init arch.

(** *** TwoLocal *)

(** The string dispatch at the head of [TwoLocal.__init__]: it rebinds the
    local names [entanglement_layer] and [entanglement_layer_params]. *)
Definition resolve_entanglement
    (entanglement_layer : pyobj) (entanglement_layer_params : dict_ref)
  : M (pyobj * dict_ref) :=
  if py_eq_str entanglement_layer "linear" then
    ret (Class Op2QAllLayer, entanglement_layer_params)
  else if py_eq_str entanglement_layer "reverse_linear" then
    p <- new_dict {[ "wire_reverse" := VBool true ]} ;;
    ret (Class Op2QAllLayer, p)
  else if py_eq_str entanglement_layer "circular" then
    p <- new_dict {[ "circular" := VBool true ]} ;;
    ret (Class Op2QAllLayer, p)
  else if py_eq_str entanglement_layer "full" then
    ret (Class Op2QDenseLayer, entanglement_layer_params)
  else
    ret (entanglement_layer, entanglement_layer_params).

Definition trainable_params : kwargs :=
  {[ "has_params" := VBool true; "trainable" := VBool true ]}.

(** [TwoLocal.__init__]. *)
Definition TwoLocal_init
    (rotation_ops : list gate) (entanglement_ops : list gate)
    (arch : option Arch)
    (rotation_layer entanglement_layer : option pyobj)
    (reps : option Z)
    (entanglement_layer_params : option dict_ref)
    (initial_circuit : option Block)
    (skip_final_rotation_layer : option bool) : M unit :=
  let rotation_layer := default (Class Op1QAllLayer) rotation_layer in
  let entanglement_layer := default (Str "linear") entanglement_layer in
  let reps := default 1 reps in
  let entanglement_layer_params :=
    default TwoLocal_entanglement_default entanglement_layer_params in
  let skip_final_rotation_layer := default false skip_final_rotation_layer in
  resolved <- resolve_entanglement entanglement_layer entanglement_layer_params ;;
  rotation_layer_params <- new_dict trainable_params ;;
  NLocal_init rotation_ops entanglement_ops arch
    (Some rotation_layer) (Some resolved.1) (Some reps)
    (Some rotation_layer_params) (Some resolved.2)
    initial_circuit (Some skip_final_rotation_layer).

(** *** The presets *)

(** [ExcitationPreserving.__init__]. *)
Definition ExcitationPreserving_init
    (arch : option Arch) (entanglement_layer : option pyobj)
    (reps : option Z) (skip_final_rotation_layer : option bool) : M unit :=
  let entanglement_layer := default (Str "full") entanglement_layer in
  let reps := default 3 reps in
  let skip_final_rotation_layer := default false skip_final_rotation_layer in
  entanglement_layer_params <- new_dict trainable_params ;;
  TwoLocal_init [RZ] [RXX; RYY] arch None (Some entanglement_layer)
    (Some reps) (Some entanglement_layer_params) None
    (Some skip_final_rotation_layer).

(** [EfficientSU2.__init__]. *)
Definition EfficientSU2_init
    (arch : option Arch) (entanglement_layer : option pyobj)
    (reps : option Z) (skip_final_rotation_layer : option bool) : M unit :=
  let entanglement_layer := default (Str "reverse_linear") entanglement_layer in
  let reps := default 3 reps in
  let skip_final_rotation_layer := default false skip_final_rotation_layer in
  TwoLocal_init [RY; RZ] [CNOT] arch None (Some entanglement_layer)
    (Some reps) None None (Some skip_final_rotation_layer).

(** [RealAmplitudes.__init__]. *)
Definition RealAmplitudes_init
    (arch : option Arch) (entanglement_layer : option pyobj)
    (reps : option Z) (skip_final_rotation_layer : option bool) : M unit :=
  let entanglement_layer := default (Str "reverse_linear") entanglement_layer in
  let reps := default 3 reps in
  let skip_final_rotation_layer := default false skip_final_rotation_layer in
  TwoLocal_init [RY] [CNOT] arch None (Some entanglement_layer)
    (Some reps) None None (Some skip_final_rotation_layer).

(** ** The composition, as the specification words it *)

(** One element of the output sequence: the initial block, appended
    verbatim, or one instantiation of a layer kind on an operation, the
    wire count and the extra parameters. *)
Inductive step : Type :=
| Supplied (b : Block)
| Constructed (f : pyobj) (op : gate) (n : Z) (kw : kwargs).

(** A sub-block: one instantiation per operation, in list order. *)
Definition sub_block (f : pyobj) (n : Z) (kw : kwargs) (ops : list gate)
  : list step :=
  (λ op, Constructed f op n kw) <$> ops.

Definition rotation_steps (s : NLocal) (h : heap) : list step :=
  sub_block (rotation_layer s) (n_wires s)
    (heap_lookup h (rotation_layer_params s)) (rotation_ops s).

Definition entanglement_steps (s : NLocal) (h : heap) : list step :=
  sub_block (entanglement_layer s) (n_wires s)
    (heap_lookup h (entanglement_layer_params s)) (entanglement_ops s).

Definition initial_steps (s : NLocal) : list step :=
  match initial_circuit s with
  | Some b => [Supplied b]
  | None => []
  end.

(** Steps 2 to 4 of the algorithm of the composition engine. *)
Definition composition (s : NLocal) (h : heap) : list step :=
  initial_steps s
  ++ concat (replicate (Z.to_nat (reps s))
               (rotation_steps s h ++ entanglement_steps s h))
  ++ (if skip_final_rotation_layer s then [] else rotation_steps s h).

(** Performing the steps in order; the first failure aborts. *)
Fixpoint run_steps (steps : list step) (w : World)
  : (exn + list Block) * World :=
  match steps with
  | [] => (inr [], w)
  | Supplied b :: rest =>
      match run_steps rest w with
      | (inr bs, w') => (inr (b :: bs), w')
      | (inl e, w') => (inl e, w')
      end
  | Constructed f op n kw :: rest =>
      match invoke f op n kw w with
      | (inr b, w') =>
          match run_steps rest w' with
          | (inr bs, w'') => (inr (b :: bs), w'')
          | (inl e, w'') => (inl e, w'')
          end
      | (inl e, w') => (inl e, w')
      end
  end.

(** A block is the outcome of a step. *)
Definition made_by (st : step) (b : Block) : Prop :=
  match st with
  | Supplied c => b = c
  | Constructed f op n kw => ∃ w w', invoke f op n kw w = (inr b, w')
  end.

(** Performing the steps as a computation on the whole state. *)
Definition perform (steps : list step) : M (list Block) :=
  external (run_steps steps).

(** The state with the collaborators' state replaced. *)
Definition with_world (σ : state) (w : World) : state :=
  MkState (self σ) (dicts σ) w.

(** The state with an attribute of [self] replaced. *)
Definition with_self (f : NLocal → NLocal) (σ : state) : state :=
  MkState (f (self σ)) (dicts σ) (world σ).

End Model.

(** ** The resolution table of the specification *)

(** Section 4.1: topology name, resulting layer kind (the base kind is
    [Op2QAllLayer], the dense kind [Op2QDenseLayer]), parameter
    overrides. *)
Definition resolution_table (name : string)
  : option (layer_class * kwargs) :=
  if String.eqb name "linear" then Some (Op2QAllLayer, ∅)
  else if String.eqb name "reverse_linear" then
    Some (Op2QAllLayer, {[ "wire_reverse" := VBool true ]})
  else if String.eqb name "circular" then
    Some (Op2QAllLayer, {[ "circular" := VBool true ]})
  else if String.eqb name "full" then Some (Op2QDenseLayer, ∅)
  else None.

(** ** A concrete set of collaborators

    Layers that record how they were constructed, together with a serial
    number drawn from the collaborators' state (so that two builds of one
    configuration yield different blocks); a user class whose constructor
    fails; an architecture descriptor that is the wire count itself. *)
Module Demo.

Inductive block : Type :=
| Built (c : layer_class) (op : gate) (n : Z) (kw : kwargs) (serial : nat)
| Circuit (name : string).

Definition construct (c : layer_class) (op : gate) (n : Z) (kw : kwargs)
    (w : nat) : (exn + block) * nat :=
  match c with
  | UserLayer _ => (inl (Raised "ValueError"), w)
  | _ => (inr (Built c op n kw w), S w)
  end.

Definition wire_count (arch : option Z) : exn + Z :=
  match arch with
  | Some n => inr n
  | None => inl (TypeError "'NoneType' object is not subscriptable")
  end.

Definition empty_heap : heap := Heap ∅ ∅ ∅ [].

(** An object before [__init__] has run. *)
Definition blank : @NLocal block :=
  MkNLocal [] (Str "") NLocal_rotation_default
           [] (Str "") NLocal_entanglement_default None false 0 0 [].

Definition start : @state block nat := MkState blank empty_heap O.

Definition reversed : kwargs := {[ "wire_reverse" := VBool true ]}.

(** A heap with two dicts supplied by a caller. *)
Definition sample_heap : heap := Heap ∅ ∅ ∅ [trainable_params; reversed].

(** An object with rotations [RY, RZ] and entanglement [CNOT]. *)
Definition sample (rot : layer_class) (r : Z) (ic : option block)
    (skip : bool) (n : Z) : @NLocal block :=
  MkNLocal [RY; RZ] (Class rot) (Allocated 0)
           [CNOT] (Class Op2QAllLayer) (Allocated 1) ic skip r n [].

Definition sample_state (rot : layer_class) (r : Z) (ic : option block)
    (skip : bool) (n : Z) (w : nat) : @state block nat :=
  MkState (sample rot r ic skip n) sample_heap w.

Definition ry (n : Z) (serial : nat) : block :=
  Built Op1QAllLayer RY n trainable_params serial.
Definition rz (n : Z) (serial : nat) : block :=
  Built Op1QAllLayer RZ n trainable_params serial.
Definition cnot (n : Z) (serial : nat) : block :=
  Built Op2QAllLayer CNOT n reversed serial.

(** The object that [ExcitationPreserving(arch, reps=1,
    skip_final_rotation_layer=True)] constructs on two wires. *)
Definition excitation_preserving : @state block nat :=
  MkState
    (MkNLocal [RZ] (Class Op1QAllLayer) (Allocated 1)
       [RXX; RYY] (Class Op2QDenseLayer) (Allocated 0) None true 1 2
       [Built Op1QAllLayer RZ 2 trainable_params 0;
        Built Op2QDenseLayer RXX 2 trainable_params 1;
        Built Op2QDenseLayer RYY 2 trainable_params 2])
    (Heap ∅ ∅ ∅ [trainable_params; trainable_params]) 3%nat.

End Demo.

(** ** Further concrete objects *)
Module Cases.

(** A rotation parameter mapping with the key "op". *)
Definition clashing_heap : heap :=
  Heap ∅ ∅ ∅ [ {[ "op" := VStr "RX" ]}; Demo.reversed ].

Definition clashing : @state Demo.block nat :=
  MkState (Demo.sample Op1QAllLayer 1 None false 2) clashing_heap O.

(** An object whose entanglement layer is a name that the dispatch did not
    know. *)
Definition unresolved : @state Demo.block nat :=
  MkState
    (MkNLocal [RY; RZ] (Class Op1QAllLayer) (Allocated 0)
       [CNOT] (Str "star") (Allocated 1) None false 1 2 [])
    Demo.sample_heap O.

(** An object with no operation at all, and layers that are not
    callable. *)
Definition idle : @state Demo.block nat :=
  MkState
    (MkNLocal [] (Str "nothing") (Allocated 0)
       [] (Str "star") (Allocated 1) (Some (Demo.Circuit "prep")) false 5 2 [])
    Demo.sample_heap O.

(** An object whose entanglement class fails to construct. *)
Definition broken_entanglement : @state Demo.block nat :=
  MkState
    (MkNLocal [RY; RZ] (Class Op1QAllLayer) (Allocated 0)
       [CNOT] (Class (UserLayer "Broken")) (Allocated 1) None false 1 2 [])
    Demo.sample_heap O.

(** A blank object in a heap where a caller has created two dicts. *)
Definition with_caller_dicts : @state Demo.block nat :=
  MkState Demo.blank Demo.sample_heap O.

End Cases.

(** * Proofs *)

Section Proofs.

Context {Block World Arch : Type}.
Context (construct :
           layer_class → gate → Z → kwargs → World → (exn + Block) * World).
Context (wire_count : option Arch → exn + Z).

Implicit Types (σ : @state Block World) (s : @NLocal Block) (h : heap).
Implicit Types (bs rs : list Block) (w : World) (steps : list (@step Block)).

(** ** Performing a list of steps *)

Lemma run_steps_app steps1 steps2 w :
  run_steps construct (steps1 ++ steps2) w =
  match run_steps construct steps1 w with
  | (inr xs, w') =>
      match run_steps construct steps2 w' with
      | (inr ys, w'') => (inr (xs ++ ys), w'')
      | (inl e, w'') => (inl e, w'')
      end
  | (inl e, w') => (inl e, w')
  end.
Proof.
  revert w. induction steps1 as [|[b|f op n kw] rest IH]; intros w; simpl.
  - by destruct (run_steps construct steps2 w) as [[e|ys] w'].
  - rewrite IH. destruct (run_steps construct rest w) as [[e|xs] w']; [done|].
    by destruct (run_steps construct steps2 w') as [[e|ys] w''].
  - destruct (invoke construct f op n kw w) as [[e|b] w1]; [done|].
    rewrite IH. destruct (run_steps construct rest w1) as [[e|xs] w']; [done|].
    by destruct (run_steps construct steps2 w') as [[e|ys] w''].
Qed.

Lemma run_steps_made_by steps w bs w' :
  run_steps construct steps w = (inr bs, w') →
  Forall2 (made_by construct) steps bs.
Proof.
  revert w bs w'. induction steps as [|[b|f op n kw] rest IH];
    intros w bs w'; simpl.
  - intros [= <- _]. constructor.
  - destruct (run_steps construct rest w) as [[e|xs] w1] eqn:E; [done|].
    intros [= <- _]. constructor; [done|eauto].
  - destruct (invoke construct f op n kw w) as [[e|b] w1] eqn:Ei; [done|].
    destruct (run_steps construct rest w1) as [[e|xs] w2] eqn:E; [done|].
    intros [= <- _]. constructor; [by exists w, w1|eauto].
Qed.

Lemma run_steps_failure steps w e w' :
  run_steps construct steps w = (inl e, w') →
  ∃ f op n kw w1 w2,
    Constructed f op n kw ∈ steps ∧
    invoke construct f op n kw w1 = (inl e, w2).
Proof.
  revert w. induction steps as [|[b|f op n kw] rest IH]; intros w; simpl.
  - done.
  - destruct (run_steps construct rest w) as [[e1|xs] w1] eqn:E; [|done].
    intros [= -> ->]. destruct (IH _ E) as (f & op & n & kw & u1 & u2 & ? & ?).
    exists f, op, n, kw, u1, u2. split; [by right|done].
  - destruct (invoke construct f op n kw w) as [[e1|b] w1] eqn:Ei.
    + intros [= -> ->]. exists f, op, n, kw, w, w'. split; [by left|done].
    + destruct (run_steps construct rest w1) as [[e1|xs] w2] eqn:E; [|done].
      intros [= -> ->].
      destruct (IH _ E) as (f1 & op1 & n1 & kw1 & u1 & u2 & ? & ?).
      exists f1, op1, n1, kw1, u1, u2. split; [by right|done].
Qed.

Lemma run_steps_success steps w :
  (∀ f op n kw, Constructed f op n kw ∈ steps →
     ∀ u, ∃ b u', invoke construct f op n kw u = (inr b, u')) →
  ∃ bs w', run_steps construct steps w = (inr bs, w').
Proof.
  revert w. induction steps as [|[b|f op n kw] rest IH]; intros w H; simpl.
  - by eexists _, _.
  - destruct (IH w) as (xs & w1 & ->).
    { intros ?????. eapply H. by right. }
    by eexists _, _.
  - destruct (H f op n kw (ltac:(by left)) w) as (b & w1 & ->).
    destruct (IH w1) as (xs & w2 & ->).
    { intros ?????. eapply H. by right. }
    by eexists _, _.
Qed.

Lemma perform_app steps1 steps2 σ :
  perform construct (steps1 ++ steps2) σ =
  (xs <- perform construct steps1 ;;
   ys <- perform construct steps2 ;;
   ret (xs ++ ys)) σ.
Proof.
  unfold perform, external, bind, ret. rewrite run_steps_app.
  destruct (run_steps construct steps1 (world σ)) as [[e|xs] w1]; [done|].
  simpl. by destruct (run_steps construct steps2 w1) as [[e|ys] w2].
Qed.

(** ** The build methods perform the composition of the specification *)

Ltac run_monad :=
  unfold call, perform; unfold bind, ret, getattr, deref, external; simpl.

Lemma sub_block_loop_spec
    (layer : @NLocal Block → pyobj) (params : @NLocal Block → dict_ref)
    (loop : list gate → list Block → M (list Block)) :
  (∀ acc, loop [] acc = ret acc) →
  (∀ op ops acc,
     loop (op :: ops) acc =
     (f <- getattr layer ;;
      n <- getattr n_wires ;;
      p <- getattr params ;;
      b <- call construct f op n p ;;
      loop ops (acc ++ [b]))) →
  ∀ ops acc σ,
    loop ops acc σ =
    (bs <- perform construct
             (sub_block (layer (self σ)) (n_wires (self σ))
                (heap_lookup (dicts σ) (params (self σ))) ops) ;;
     ret (acc ++ bs)) σ.
Proof.
  intros Hnil Hcons ops. induction ops as [|op ops IH]; intros acc σ.
  - rewrite Hnil. run_monad. rewrite app_nil_r. by destruct σ.
  - rewrite Hcons. run_monad.
    destruct (invoke construct _ op _ _ (world σ)) as [[e|b] w1]; [done|].
    rewrite IH. run_monad.
    destruct (run_steps construct _ w1) as [[e|xs] w2]; [done|].
    by rewrite <- app_assoc.
Qed.

Lemma build_rotation_block_spec σ :
  build_rotation_block construct σ =
  perform construct (rotation_steps (self σ) (dicts σ)) σ.
Proof.
  unfold build_rotation_block, bind at 1, getattr at 1.
  rewrite (sub_block_loop_spec rotation_layer rotation_layer_params
             (rotation_loop construct)); [|done..].
  run_monad. unfold rotation_steps.
  by destruct (run_steps construct _ (world σ)) as [[e|xs] w1].
Qed.

Lemma build_entanglement_block_spec σ :
  build_entanglement_block construct σ =
  perform construct (entanglement_steps (self σ) (dicts σ)) σ.
Proof.
  unfold build_entanglement_block, bind at 1, getattr at 1.
  rewrite (sub_block_loop_spec entanglement_layer entanglement_layer_params
             (entanglement_loop construct)); [|done..].
  run_monad. unfold entanglement_steps.
  by destruct (run_steps construct _ (world σ)) as [[e|xs] w1].
Qed.

Lemma bind_eq {S A B} (m : ST S A) (k : A → ST S B) (σ : S) :
  bind m k σ =
  match m σ with
  | (inr a, σ') => k a σ'
  | (inl e, σ') => (inl e, σ')
  end.
Proof. reflexivity. Qed.

Lemma reps_loop_spec n acc σ :
  reps_loop construct n acc σ =
  (bs <- perform construct
           (concat (replicate n (rotation_steps (self σ) (dicts σ)
                                 ++ entanglement_steps (self σ) (dicts σ)))) ;;
   ret (acc ++ bs)) σ.
Proof.
  revert acc σ. induction n as [|n IH]; intros acc σ.
  - simpl. run_monad. rewrite app_nil_r. by destruct σ.
  - cbn [reps_loop replicate concat].
    rewrite bind_eq, build_rotation_block_spec. run_monad.
    rewrite !run_steps_app.
    destruct (run_steps construct (rotation_steps _ _) (world σ))
      as [[e|xs] w1]; [done|].
    rewrite build_entanglement_block_spec. run_monad.
    destruct (run_steps construct (entanglement_steps _ _) w1)
      as [[e|ys] w2]; [done|].
    rewrite IH. run_monad.
    destruct (run_steps construct (concat _) w2) as [[e|zs] w3]; [done|].
    by rewrite !app_assoc.
Qed.

Lemma build_layers_spec σ :
  build_layers construct σ =
  perform construct (composition (self σ) (dicts σ)) σ.
Proof.
  unfold build_layers, composition, initial_steps. run_monad.
  rewrite reps_loop_spec. run_monad. rewrite !run_steps_app.
  destruct (initial_circuit (self σ)) as [c|]; simpl;
    rewrite run_steps_app;
    (destruct (run_steps construct (concat _) (world σ)) as [[e|xs] w1];
       [done|]);
    simpl;
    (destruct (skip_final_rotation_layer (self σ)); simpl;
       [by rewrite app_nil_r|]);
    rewrite build_rotation_block_spec; run_monad;
    by destruct (run_steps construct (rotation_steps _ _) w1) as [[e|ys] w2].
Qed.

(** Performing steps leaves the object and the dicts as they are. *)
Lemma perform_frame steps σ :
  (perform construct steps σ).2 =
  with_world σ (perform construct steps σ).2.(world).
Proof.
  run_monad. by destruct (run_steps construct steps (world σ)) as [r w1].
Qed.

Lemma perform_inr steps σ bs σ' :
  perform construct steps σ = (inr bs, σ') →
  Forall2 (made_by construct) steps bs ∧ σ' = with_world σ (world σ').
Proof.
  run_monad. destruct (run_steps construct steps (world σ)) as [r w1] eqn:E.
  intros [= -> <-]. split; [by eapply run_steps_made_by|done].
Qed.

(** ** Size of the composition *)

Lemma length_sub_block f n kw ops :
  length (@sub_block Block f n kw ops) = length ops.
Proof. unfold sub_block. by rewrite length_fmap. Qed.

Lemma length_concat_replicate {A} (n : nat) (l : list A) :
  length (concat (replicate n l)) = (n * length l)%nat.
Proof.
  induction n as [|n IH]; simpl; [done|]. by rewrite length_app, IH.
Qed.

Lemma elem_of_concat_replicate {A} (n : nat) (l : list A) (x : A) :
  x ∈ concat (replicate n l) → x ∈ l.
Proof.
  induction n as [|n IH]; simpl; [by intros ?%elem_of_nil|].
  rewrite elem_of_app. by intros [?|?]; [|apply IH].
Qed.

Lemma elem_of_sub_block f n kw ops (st : @step Block) :
  st ∈ sub_block f n kw ops → ∃ op, st = Constructed f op n kw ∧ op ∈ ops.
Proof. unfold sub_block. by rewrite list_elem_of_fmap. Qed.

Lemma constructed_in_composition s h f op n kw :
  Constructed f op n kw ∈ composition s h → n = n_wires s.
Proof.
  unfold composition, initial_steps, rotation_steps, entanglement_steps.
  rewrite !elem_of_app.
  intros [Hin|[Hin%elem_of_concat_replicate|Hin]].
  - destruct (initial_circuit s).
    + apply list_elem_of_singleton in Hin. discriminate.
    + by apply elem_of_nil in Hin.
  - apply elem_of_app in Hin as [Hin|Hin];
      apply elem_of_sub_block in Hin as (? & [= _ _ -> _] & _); done.
  - destruct (skip_final_rotation_layer s).
    + by apply elem_of_nil in Hin.
    + by apply elem_of_sub_block in Hin as (? & [= _ _ -> _] & _).
Qed.

Lemma length_composition s h :
  length (composition s h) =
  ((match initial_circuit s with Some _ => 1 | None => 0 end)
   + Z.to_nat (reps s)
     * (length (rotation_ops s) + length (entanglement_ops s))
   + (if skip_final_rotation_layer s then 0 else length (rotation_ops s)))%nat.
Proof.
  unfold composition, initial_steps, rotation_steps, entanglement_steps.
  rewrite !length_app, length_concat_replicate, length_app, !length_sub_block.
  destruct (initial_circuit s), (skip_final_rotation_layer s);
    cbn [length]; rewrite ?length_sub_block; lia.
Qed.

Lemma made_by_initial_steps s bs :
  Forall2 (made_by construct) (initial_steps s) bs →
  bs = option_list (initial_circuit s).
Proof.
  unfold initial_steps. destruct (initial_circuit s) as [c|]; simpl.
  - intros H. inversion H as [|? b ? bs' Hb Hnil]; subst.
    inversion Hnil; subst. simpl in Hb. by subst.
  - by intros H; inversion H.
Qed.

Lemma composition_no_reps s h :
  reps s ≤ 0 →
  composition s h =
  initial_steps s
  ++ (if skip_final_rotation_layer s then [] else rotation_steps s h).
Proof.
  intros Hr. unfold composition.
  by replace (Z.to_nat (reps s)) with 0%nat by lia.
Qed.

(** ** NLocal.build_layers *)

(** C1.  The sequence returned by [build_layers] for a configuration with
    [reps >= 0] has (1 if an initial circuit is present, else 0)
    + reps * (|rotation_ops| + |entanglement_ops|)
    + (0 if the final rotation layer is skipped, else |rotation_ops|)
    blocks.  With [reps = 0], the final rotation layer kept and
    [rotation_ops] nonempty, the blocks after the initial circuit (if any)
    are exactly |rotation_ops| blocks, each made by the rotation layer on
    the corresponding rotation operation: no entanglement block. *)
Theorem build_layers_length σ bs σ' :
  0 ≤ reps (self σ) →
  build_layers construct σ = (inr bs, σ') →
  Z.of_nat (length bs) =
    (match initial_circuit (self σ) with Some _ => 1 | None => 0 end)
    + reps (self σ)
      * (Z.of_nat (length (rotation_ops (self σ)))
         + Z.of_nat (length (entanglement_ops (self σ))))
    + (if skip_final_rotation_layer (self σ) then 0
       else Z.of_nat (length (rotation_ops (self σ))))
  ∧ (reps (self σ) = 0 →
     skip_final_rotation_layer (self σ) = false →
     rotation_ops (self σ) ≠ [] →
     ∃ rs,
       bs = option_list (initial_circuit (self σ)) ++ rs ∧
       length rs = length (rotation_ops (self σ)) ∧
       Forall2 (made_by construct) (rotation_steps (self σ) (dicts σ)) rs).
Proof.
  intros Hreps Hrun. rewrite build_layers_spec in Hrun.
  apply perform_inr in Hrun as [Hmade _]. split.
  - apply Forall2_length in Hmade. rewrite <- Hmade, length_composition.
    destruct (initial_circuit (self σ)),
      (skip_final_rotation_layer (self σ)); lia.
  - intros H0 Hskip _. rewrite composition_no_reps, Hskip in Hmade by lia.
    apply Forall2_app_inv_l in Hmade as (xs & rs & Hxs & Hrs & ->).
    exists rs. split; [by rewrite (made_by_initial_steps _ _ Hxs)|].
    split; [|done]. apply Forall2_length in Hrs. rewrite <- Hrs.
    apply length_sub_block.
Qed.

(** C4.  When an initial circuit is present, it is the block at index 0 of
    the sequence returned by [build_layers], whatever [reps] and
    [skip_final_rotation_layer] are.  When it is absent it contributes
    nothing and raises nothing: the outcome (blocks or exception) is that
    of the same configuration with an initial circuit, less the leading
    block. *)
Theorem initial_circuit_first σ :
  (∀ c bs σ',
     initial_circuit (self σ) = Some c →
     build_layers construct σ = (inr bs, σ') →
     bs !! 0%nat = Some c) ∧
  (initial_circuit (self σ) = None →
   ∀ c,
     (build_layers construct (with_self (set_initial_circuit (Some c)) σ)).1
     = sum_map id (cons c) (build_layers construct σ).1).
Proof.
  split.
  - intros c bs σ' Hc Hrun. rewrite build_layers_spec in Hrun.
    apply perform_inr in Hrun as [Hmade _].
    unfold composition, initial_steps in Hmade. rewrite Hc in Hmade.
    inversion Hmade as [|? b ? bs' Hb _]; subst. simpl in Hb. by subst.
  - intros Hnone c. rewrite !build_layers_spec. run_monad.
    unfold composition, initial_steps. simpl. rewrite Hnone. simpl.
    change (rotation_steps (set_initial_circuit (Some c) (self σ)) (dicts σ))
      with (rotation_steps (self σ) (dicts σ)).
    change (entanglement_steps (set_initial_circuit (Some c) (self σ))
              (dicts σ))
      with (entanglement_steps (self σ) (dicts σ)).
    by destruct (run_steps construct _ (world σ)) as [[e|xs] w1].
Qed.

(** C5.  [build_layers] is deterministic in the configuration: two
    invocations on the same attribute values and the same contents of the
    two parameter mappings, in whatever states the collaborators are, yield
    sequences of the same length whose blocks are made, position by
    position, by the same steps (the same layer, operation, wire count
    and keyword arguments): those of the composition of the
    configuration. *)
Theorem build_layers_deterministic σ1 σ2 bs1 bs2 σ1' σ2' :
  self σ1 = self σ2 →
  heap_lookup (dicts σ1) (rotation_layer_params (self σ1)) =
  heap_lookup (dicts σ2) (rotation_layer_params (self σ2)) →
  heap_lookup (dicts σ1) (entanglement_layer_params (self σ1)) =
  heap_lookup (dicts σ2) (entanglement_layer_params (self σ2)) →
  build_layers construct σ1 = (inr bs1, σ1') →
  build_layers construct σ2 = (inr bs2, σ2') →
  length bs1 = length bs2 ∧
  Forall2 (made_by construct) (composition (self σ1) (dicts σ1)) bs1 ∧
  Forall2 (made_by construct) (composition (self σ1) (dicts σ1)) bs2.
Proof.
  intros Hself Hrot Hent Hrun1 Hrun2.
  rewrite build_layers_spec in Hrun1, Hrun2.
  apply perform_inr in Hrun1 as [Hmade1 _].
  apply perform_inr in Hrun2 as [Hmade2 _].
  assert (composition (self σ2) (dicts σ2)
          = composition (self σ1) (dicts σ1)) as Hsame.
  { unfold composition, rotation_steps, entanglement_steps.
    by rewrite <- Hrot, <- Hent, <- Hself. }
  rewrite Hsame in Hmade2. split; [|done].
  apply Forall2_length in Hmade1, Hmade2. congruence.
Qed.

(** C9.  With a negative [reps] the repetition loop runs zero times:
    [build_layers] has the outcome (blocks or exception, and effect on the
    collaborators) of the same configuration with [reps = 0], and raises
    nothing of its own: it returns the initial circuit (if any) alone when
    the final rotation layer is skipped, and followed by the rotation block
    otherwise. *)
Theorem negative_reps_as_zero σ :
  reps (self σ) < 0 →
  (build_layers construct σ).1
  = (build_layers construct (with_self (set_reps 0) σ)).1 ∧
  world (build_layers construct σ).2
  = world (build_layers construct (with_self (set_reps 0) σ)).2 ∧
  (skip_final_rotation_layer (self σ) = true →
   build_layers construct σ
   = (inr (option_list (initial_circuit (self σ))), σ)) ∧
  (skip_final_rotation_layer (self σ) = false →
   ∀ rs σ',
     build_rotation_block construct σ = (inr rs, σ') →
     build_layers construct σ
     = (inr (option_list (initial_circuit (self σ)) ++ rs), σ')).
Proof.
  intros Hneg.
  assert (composition (set_reps 0 (self σ)) (dicts σ)
          = composition (self σ) (dicts σ)) as Hsame.
  { rewrite !composition_no_reps by (simpl; lia). done. }
  rewrite !build_layers_spec. simpl. rewrite Hsame.
  split; [|split; [|split]].
  - run_monad. by destruct (run_steps construct _ (world σ)) as [r w1].
  - run_monad. by destruct (run_steps construct _ (world σ)) as [r w1].
  - intros Hskip. rewrite composition_no_reps, Hskip, app_nil_r by lia.
    run_monad. unfold initial_steps.
    destruct (initial_circuit (self σ)); simpl; by destruct σ.
  - intros Hskip rs σ'. rewrite composition_no_reps, Hskip by lia.
    rewrite build_rotation_block_spec. run_monad. rewrite run_steps_app.
    destruct (run_steps construct (rotation_steps _ _) (world σ))
      as [[e|ys] w1] eqn:E; [done|].
    intros [= -> <-]. unfold initial_steps.
    destruct (initial_circuit (self σ)); simpl; by rewrite E.
Qed.

(** C10.  [build_layers], [build_rotation_block] and
    [build_entanglement_block] leave the object and every dict as they
    were, whether they return or raise: all attributes of the
    configuration keep their values and no parameter dictionary, shared
    default or other, is changed. *)
Theorem build_preserves_configuration σ :
  let unchanged (m : M (list Block)) :=
    self (m σ).2 = self σ ∧ dicts (m σ).2 = dicts σ in
  unchanged (build_layers construct) ∧
  unchanged (build_rotation_block construct) ∧
  unchanged (build_entanglement_block construct).
Proof.
  simpl. rewrite build_layers_spec, build_rotation_block_spec,
    build_entanglement_block_spec.
  repeat split; by rewrite perform_frame.
Qed.

(** C6, amended.  [build_layers] does not examine the wire count.  For
    every wire count, below 1 or not, a failure of the build is the
    failure of one layer construction call of the composition, made on the
    wire count of the configuration, and nothing is returned then; when
    every construction call of the composition succeeds, the build returns
    the whole sequence. *)
Theorem build_layers_ignores_wire_count σ :
  (∀ e σ',
     build_layers construct σ = (inl e, σ') →
     ∃ f op kw w w',
       Constructed f op (n_wires (self σ)) kw
         ∈ composition (self σ) (dicts σ) ∧
       invoke construct f op (n_wires (self σ)) kw w = (inl e, w')) ∧
  ((∀ f op n kw,
      Constructed f op n kw ∈ composition (self σ) (dicts σ) →
      ∀ w, ∃ b w', invoke construct f op n kw w = (inr b, w')) →
   ∃ bs σ',
     build_layers construct σ = (inr bs, σ') ∧
     length bs = length (composition (self σ) (dicts σ))).
Proof.
  rewrite build_layers_spec. split.
  - intros e σ'. run_monad.
    destruct (run_steps construct _ (world σ)) as [r w1] eqn:E.
    intros [= -> <-].
    destruct (run_steps_failure _ _ _ _ E)
      as (f & op & n & kw & u1 & u2 & Hin & Hinv).
    apply constructed_in_composition in Hin as Hn. subst n.
    by exists f, op, kw, u1, u2.
  - intros Hok.
    destruct (run_steps_success _ (world σ) Hok) as (bs & w1 & E).
    exists bs, (with_world σ w1). run_monad. rewrite E. split; [done|].
    symmetry. eapply Forall2_length, run_steps_made_by, E.
Qed.

(** ** Dict objects *)

Lemma heap_lookup_alloc_new h d :
  heap_lookup (heap_alloc h d).2 (heap_alloc h d).1 = d.
Proof.
  simpl. by rewrite lookup_app_r, Nat.sub_diag by done.
Qed.

Lemma heap_lookup_alloc_live h d r :
  live h r → heap_lookup (heap_alloc h d).2 r = heap_lookup h r.
Proof.
  destruct r as [| | |i]; simpl; try done.
  intros Hi. by rewrite lookup_app_l.
Qed.

Lemma live_alloc h d r : live h r → live (heap_alloc h d).2 r.
Proof.
  destruct r as [| | |i]; simpl; try done. rewrite length_app. lia.
Qed.

Lemma live_alloc_new h d : live (heap_alloc h d).2 (heap_alloc h d).1.
Proof. simpl. rewrite length_app. simpl. lia. Qed.

Lemma new_dict_eq (d : kwargs) σ :
  new_dict d σ
  = (inr (heap_alloc (dicts σ) d).1,
     MkState (self σ) (heap_alloc (dicts σ) d).2 (world σ)).
Proof. reflexivity. Qed.

(** ** The string dispatch of TwoLocal.__init__ *)

Lemma resolution_table_unknown name :
  name ∉ ["linear"; "reverse_linear"; "circular"; "full"] ↔
  resolution_table name = None.
Proof.
  unfold resolution_table. rewrite !not_elem_of_cons.
  destruct (String.eqb_spec name "linear");
    destruct (String.eqb_spec name "reverse_linear");
    destruct (String.eqb_spec name "circular");
    destruct (String.eqb_spec name "full");
    split; try done; try tauto.
  intros _. repeat split; try done. apply not_elem_of_nil.
Qed.

(** What the dispatch yields for any argument, name or class: never an
    exception; the attributes, the collaborators and the existing dicts
    are as before. *)
Lemma resolve_entanglement_post (o : pyobj) (p : dict_ref) σ :
  live (dicts σ) p →
  ∃ o' p' h',
    resolve_entanglement o p σ
    = (inr (o', p'), MkState (self σ) h' (world σ)) ∧
    live h' p' ∧
    (∀ r, live (dicts σ) r → live h' r) ∧
    (∀ r, live (dicts σ) r → heap_lookup h' r = heap_lookup (dicts σ) r).
Proof.
  intros Hp. unfold resolve_entanglement.
  destruct (py_eq_str o "linear");
    [|destruct (py_eq_str o "reverse_linear");
      [|destruct (py_eq_str o "circular");
        [|destruct (py_eq_str o "full")]]].
  all: try (eexists _, p, (dicts σ); split; [by destruct σ|done]).
  all: eexists _, _, _; split; [reflexivity|].
  all: split; [apply live_alloc_new|].
  all: split; intros r Hr;
    [by apply live_alloc|by apply heap_lookup_alloc_live].
Qed.

(** C2, amended.  The string dispatch of [TwoLocal.__init__] raises no
    exception for any name.  A name that is not one of "linear",
    "reverse_linear", "circular", "full" is passed on unchanged in place of
    a layer kind, with the caller's parameter mapping: no default layer
    kind is substituted.  For the four known names the dispatch is a pure
    total function: it returns the layer kind of the resolution table and
    a parameter mapping that holds the overrides of the table, and changes
    neither the object, nor the collaborators, nor any existing dict. *)
Theorem resolve_entanglement_names (name : string) (p : dict_ref) σ :
  (name ∉ ["linear"; "reverse_linear"; "circular"; "full"] →
   resolve_entanglement (Str name) p σ = (inr (Str name, p), σ)) ∧
  (∀ k overrides,
     resolution_table name = Some (k, overrides) →
     ∃ p' σ',
       resolve_entanglement (Str name) p σ = (inr (Class k, p'), σ') ∧
       overrides ⊆ heap_lookup (dicts σ') p' ∧
       self σ' = self σ ∧ world σ' = world σ ∧
       ∀ r, live (dicts σ) r →
            heap_lookup (dicts σ') r = heap_lookup (dicts σ) r).
Proof.
  split.
  - intros Hname%resolution_table_unknown. revert Hname.
    unfold resolution_table, resolve_entanglement, py_eq_str.
    by repeat case_match.
  - intros k overrides.
    unfold resolution_table, resolve_entanglement, py_eq_str.
    repeat case_match; intros [= <- <-].
    + exists p, σ. split_and!; try done. apply map_empty_subseteq.
    + set (d := {[ "wire_reverse" := VBool true ]} : kwargs).
      exists (heap_alloc (dicts σ) d).1,
        (MkState (self σ) (heap_alloc (dicts σ) d).2 (world σ)).
      split; [reflexivity|]. cbn [dicts self world].
      rewrite heap_lookup_alloc_new.
      split_and!; try done. intros r Hr. by apply heap_lookup_alloc_live.
    + set (d := {[ "circular" := VBool true ]} : kwargs).
      exists (heap_alloc (dicts σ) d).1,
        (MkState (self σ) (heap_alloc (dicts σ) d).2 (world σ)).
      split; [reflexivity|]. cbn [dicts self world].
      rewrite heap_lookup_alloc_new.
      split_and!; try done. intros r Hr. by apply heap_lookup_alloc_live.
    + exists p, σ. split_and!; try done. apply map_empty_subseteq.
Qed.

(** ** The constructors *)

Lemma assignments_eq ro rl rp eo el ep ic sk r (s : @NLocal Block) :
  set_reps r
    (set_skip_final_rotation_layer sk
       (set_initial_circuit ic
          (set_entanglement_layer_params ep
             (set_entanglement_layer el
                (set_entanglement_ops eo
                   (set_rotation_layer_params rp
                      (set_rotation_layer rl
                         (set_rotation_ops ro s))))))))
  = MkNLocal ro rl rp eo el ep ic sk r (n_wires s) (layers_all s).
Proof. reflexivity. Qed.

(** The object after [NLocal.__init__], returning or raising. *)
Lemma NLocal_init_post ro eo arch rl el r rp ep ic sk σ :
  let out :=
    NLocal_init construct wire_count ro eo arch (Some rl) (Some el) (Some r)
      (Some rp) (Some ep) ic (Some sk) σ in
  ∃ n la w,
    out.2 = MkState (MkNLocal ro rl rp eo el ep ic sk r n la) (dicts σ) w ∧
    (out.1 = inr tt →
     wire_count arch = inr n ∧
     Forall2 (made_by construct)
       (composition (MkNLocal ro rl rp eo el ep ic sk r n la) (dicts σ)) la).
Proof.
  unfold NLocal_init, LayerTemplate0_init. cbv zeta.
  unfold bind, setattr, raise. cbn -[build_layers composition set_reps].
  rewrite assignments_eq.
  destruct (wire_count arch) as [e|n];
    cbn -[build_layers composition].
  - by eexists _, _, _.
  - rewrite build_layers_spec. unfold perform, external.
    cbn -[composition run_steps].
    destruct (run_steps construct _ (world σ)) as [[e|bs] w1] eqn:E;
      cbn -[composition run_steps].
    + by eexists _, _, _.
    + exists n, bs, w1. split; [reflexivity|]. intros _. split; [done|].
      apply run_steps_made_by in E. exact E.
Qed.

(** The object after [TwoLocal.__init__], returning or raising. *)
Lemma TwoLocal_init_post ro eo arch rl e r ep ic sk σ :
  live (dicts σ) (default TwoLocal_entanglement_default ep) →
  let out :=
    TwoLocal_init construct wire_count ro eo arch rl e r ep ic sk σ in
  ∃ el p' h1 rp n la,
    resolve_entanglement (default (Str "linear") e)
      (default TwoLocal_entanglement_default ep) σ
    = (inr (el, p'), MkState (self σ) h1 (world σ)) ∧
    live h1 p' ∧
    heap_lookup (dicts out.2) p' = heap_lookup h1 p' ∧
    heap_lookup (dicts out.2) rp = trainable_params ∧
    self out.2
    = MkNLocal ro (default (Class Op1QAllLayer) rl) rp eo el p' ic
        (default false sk) (default 1 r) n la ∧
    (out.1 = inr tt →
     wire_count arch = inr n ∧
     Forall2 (made_by construct) (composition (self out.2) (dicts out.2)) la).
Proof.
  intros Hlive. unfold TwoLocal_init.
  destruct (resolve_entanglement_post (default (Str "linear") e) _ σ Hlive)
    as (el & p' & h1 & Hres & Hp' & _ & _).
  cbv zeta. rewrite bind_eq, Hres, bind_eq, new_dict_eq.
  cbn [self dicts world fst snd].
  set (h2 := (heap_alloc h1 trainable_params).2).
  set (rp := (heap_alloc h1 trainable_params).1).
  set (σ2 := MkState (self σ) h2 (world σ)).
  destruct (NLocal_init_post ro eo arch (default (Class Op1QAllLayer) rl)
              el (default 1 r) rp p' ic (default false sk) σ2)
    as (n & la & w & Hst & Hok).
  cbv zeta in Hst, Hok.
  exists el, p', h1, rp, n, la. split; [done|]. split; [done|].
  rewrite Hst. cbn [self dicts].
  split; [by apply heap_lookup_alloc_live|].
  split; [apply heap_lookup_alloc_new|].
  split; [done|]. intros Hret. by apply Hok.
Qed.

(** ** The presets *)

(** C7.  Whatever the caller passes to [EfficientSU2.__init__], the object
    is configured with rotation operations [RY, RZ], entanglement
    operation [CNOT], the apply-to-all-wires rotation layer
    [Op1QAllLayer] with parameters {has_params: True, trainable: True},
    no initial circuit, [reps] defaulting to 3, and the entanglement layer
    and parameters that the string dispatch yields for the topology
    argument, defaulting to "reverse_linear" (that is [Op2QAllLayer] with
    {wire_reverse: True}); when the constructor returns, its layers are
    the composition of that configuration. *)
Theorem EfficientSU2_configuration arch e r sk σ :
  let out := EfficientSU2_init construct wire_count arch e r sk σ in
  let s := self out.2 in
  let h := dicts out.2 in
  rotation_ops s = [RY; RZ] ∧
  entanglement_ops s = [CNOT] ∧
  rotation_layer s = Class Op1QAllLayer ∧
  heap_lookup h (rotation_layer_params s) =
    {[ "has_params" := VBool true; "trainable" := VBool true ]} ∧
  initial_circuit s = None ∧
  reps s = default 3 r ∧
  skip_final_rotation_layer s = default false sk ∧
  (∃ σr,
     resolve_entanglement (default (Str "reverse_linear") e)
       TwoLocal_entanglement_default σ
     = (inr (entanglement_layer s, entanglement_layer_params s), σr) ∧
     heap_lookup h (entanglement_layer_params s)
     = heap_lookup (dicts σr) (entanglement_layer_params s)) ∧
  (e = None →
   entanglement_layer s = Class Op2QAllLayer ∧
   heap_lookup h (entanglement_layer_params s)
   = {[ "wire_reverse" := VBool true ]}) ∧
  (out.1 = inr tt →
   Forall2 (made_by construct) (composition s h) (layers_all s)).
Proof.
  unfold EfficientSU2_init. cbv zeta.
  destruct (TwoLocal_init_post [RY; RZ] [CNOT] arch None
              (Some (default (Str "reverse_linear") e))
              (Some (default 3 r)) None None
              (Some (default false sk)) σ I)
    as (el & p' & h1 & rp & n & la & Hres & Hp' & Hlook & Hrp & Hself & Hok).
  cbn [default from_option id] in Hres, Hself.
  rewrite Hself. cbn [rotation_ops entanglement_ops rotation_layer
    rotation_layer_params initial_circuit reps skip_final_rotation_layer
    entanglement_layer entanglement_layer_params layers_all].
  split_and!; try done.
  - by eexists.
  - intros ->. revert Hres. cbn [default from_option].
    unfold resolve_entanglement. cbn [py_eq_str String.eqb Ascii.eqb
      Bool.eqb andb]. rewrite bind_eq, new_dict_eq. unfold ret.
    intros [= <- <- <-]. split; [done|].
    etrans; [apply Hlook|]. apply heap_lookup_alloc_new.
  - intros Hret. apply Hok in Hret as [_ Hmade]. by rewrite Hself in Hmade.
Qed.

(** C8.  When [ExcitationPreserving.__init__], called with [reps = 1] and
    [skip_final_rotation_layer = True], returns, the layers of the object
    are exactly three blocks: one made by [Op1QAllLayer] on [RZ], then one
    made by the entanglement layer on [RXX], then one made by it on [RYY],
    and no trailing rotation block.  With the default topology the
    entanglement layer is [Op2QDenseLayer] with parameters
    {has_params: True, trainable: True}. *)
Theorem ExcitationPreserving_one_rep arch e σ σ' :
  ExcitationPreserving_init construct wire_count arch e (Some 1) (Some true) σ
  = (inr tt, σ') →
  let s := self σ' in
  let kw := heap_lookup (dicts σ') (entanglement_layer_params s) in
  wire_count arch = inr (n_wires s) ∧
  (e = None → entanglement_layer s = Class Op2QDenseLayer ∧
              kw = trainable_params) ∧
  ∃ b1 b2 b3,
    layers_all s = [b1; b2; b3] ∧
    made_by construct
      (Constructed (Class Op1QAllLayer) RZ (n_wires s) trainable_params) b1 ∧
    made_by construct
      (Constructed (entanglement_layer s) RXX (n_wires s) kw) b2 ∧
    made_by construct
      (Constructed (entanglement_layer s) RYY (n_wires s) kw) b3.
Proof.
  unfold ExcitationPreserving_init. cbv zeta.
  rewrite bind_eq, new_dict_eq.
  set (σ1 := MkState (self σ) (heap_alloc (dicts σ) trainable_params).2
               (world σ)).
  set (p0 := (heap_alloc (dicts σ) trainable_params).1).
  destruct (TwoLocal_init_post [RZ] [RXX; RYY] arch None
              (Some (default (Str "full") e)) (Some (default 3 (Some 1)))
              (Some p0) None (Some (default false (Some true))) σ1
              (live_alloc_new _ _))
    as (el & p' & h1 & rp & n & la & Hres & Hp' & Hlook & Hrp & Hself & Hok).
  cbn [default from_option id] in Hres, Hlook, Hrp, Hself, Hok |- *.
  intros Hrun. rewrite Hrun in Hlook, Hrp, Hself, Hok.
  cbn [fst snd] in Hlook, Hrp, Hself, Hok.
  destruct (Hok eq_refl) as [Hwires Hmade]. clear Hok.
  rewrite Hself in Hmade |- *.
  cbn [n_wires entanglement_layer entanglement_layer_params layers_all].
  split; [done|]. split.
  - intros ->. revert Hres. cbn [default from_option].
    unfold resolve_entanglement. cbn [py_eq_str String.eqb Ascii.eqb
      Bool.eqb andb]. unfold ret. intros [= <- <- <-]. split; [done|].
    etrans; [apply Hlook|]. apply heap_lookup_alloc_new.
  - revert Hmade. unfold composition, initial_steps, rotation_steps,
      entanglement_steps, sub_block.
    cbn [initial_circuit reps skip_final_rotation_layer rotation_ops
      entanglement_ops rotation_layer entanglement_layer n_wires
      rotation_layer_params entanglement_layer_params
      Z.to_nat Pos.to_nat Pos.iter_op Nat.add replicate concat fmap list_fmap
      app].
    rewrite Hrp. intros Hmade.
    inversion Hmade as [|? b1 ? l1 Hb1 Hl1]; subst.
    inversion Hl1 as [|? b2 ? l2 Hb2 Hl2]; subst.
    inversion Hl2 as [|? b3 ? l3 Hb3 Hl3]; subst.
    inversion Hl3; subst.
    by exists b1, b2, b3.
Qed.

(** ** Further properties of the build methods *)

Lemma run_steps_initial s steps w :
  run_steps construct (initial_steps s ++ steps) w =
  match run_steps construct steps w with
  | (inr bs, w') => (inr (option_list (initial_circuit s) ++ bs), w')
  | (inl e, w') => (inl e, w')
  end.
Proof.
  unfold initial_steps. destruct (initial_circuit s) as [c|]; simpl;
    by destruct (run_steps construct steps w) as [[e|bs] w'].
Qed.

Lemma run_steps_first_failure steps w e w' :
  run_steps construct steps w = (inl e, w') →
  ∃ before f op n kw rest bs w1,
    steps = before ++ Constructed f op n kw :: rest ∧
    run_steps construct before w = (inr bs, w1) ∧
    invoke construct f op n kw w1 = (inl e, w').
Proof.
  revert w. induction steps as [|[b|f op n kw] steps IH]; intros w; simpl.
  - done.
  - destruct (run_steps construct steps w) as [[e1|xs] w1] eqn:E; [|done].
    intros [= -> ->].
    destruct (IH _ E) as (pre & f & op & n & kw & rest & bs & u & -> & Hpre & Hf).
    exists (Supplied b :: pre), f, op, n, kw, rest, (b :: bs), u.
    split; [done|]. split; [|done]. simpl. by rewrite Hpre.
  - destruct (invoke construct f op n kw w) as [[e1|b] w1] eqn:Ei.
    + intros [= -> ->]. by exists [], f, op, n, kw, steps, [], w.
    + destruct (run_steps construct steps w1) as [[e1|xs] w2] eqn:E; [|done].
      intros [= -> ->].
      destruct (IH _ E)
        as (pre & f1 & op1 & n1 & kw1 & rest & bs & u & -> & Hpre & Hf).
      exists (Constructed f op n kw :: pre), f1, op1, n1, kw1, rest,
        (b :: bs), u.
      split; [done|]. split; [|done]. simpl. by rewrite Ei, Hpre.
Qed.

Lemma invoke_inr f op n kw w b w' :
  invoke construct f op n kw w = (inr b, w') →
  ∃ c, f = Class c ∧ kw !! "op" = None ∧ kw !! "n_wires" = None ∧
       construct c op n kw w = (inr b, w').
Proof.
  unfold invoke.
  destruct (kw !! "op"), (kw !! "n_wires"), f as [name|c]; try done.
  intros H. by exists c.
Qed.

Lemma concat_replicate_nil {A} (n : nat) :
  concat (replicate n (@nil A)) = [].
Proof. induction n as [|n IH]; simpl; done. Qed.

(** The two sub-block methods build one block per operation, in the order
    of the operation list, each by the layer of the sub-block on that
    operation, the wire count of the object and the content of the
    parameter mapping of the sub-block. *)
Theorem sub_blocks_in_operation_order σ :
  (∀ bs σ',
     build_rotation_block construct σ = (inr bs, σ') →
     Forall2
       (λ op b,
          made_by construct
            (Constructed (rotation_layer (self σ)) op (n_wires (self σ))
               (heap_lookup (dicts σ) (rotation_layer_params (self σ)))) b)
       (rotation_ops (self σ)) bs) ∧
  (∀ bs σ',
     build_entanglement_block construct σ = (inr bs, σ') →
     Forall2
       (λ op b,
          made_by construct
            (Constructed (entanglement_layer (self σ)) op (n_wires (self σ))
               (heap_lookup (dicts σ) (entanglement_layer_params (self σ))))
            b)
       (entanglement_ops (self σ)) bs).
Proof.
  split; intros bs σ' Hrun.
  - rewrite build_rotation_block_spec in Hrun.
    apply perform_inr in Hrun as [Hmade _].
    unfold rotation_steps, sub_block in Hmade.
    exact (proj1 (Forall2_fmap_l _ _ _ _) Hmade).
  - rewrite build_entanglement_block_spec in Hrun.
    apply perform_inr in Hrun as [Hmade _].
    unfold entanglement_steps, sub_block in Hmade.
    exact (proj1 (Forall2_fmap_l _ _ _ _) Hmade).
Qed.

(** With no rotation operation and no entanglement operation the build
    calls no layer at all: for every [reps] and either value of
    [skip_final_rotation_layer], and whatever the layer attributes and
    parameter mappings hold, it returns the initial circuit alone (or the
    empty sequence) and changes nothing. *)
Theorem no_operations_no_construction σ :
  rotation_ops (self σ) = [] →
  entanglement_ops (self σ) = [] →
  build_layers construct σ = (inr (option_list (initial_circuit (self σ))), σ).
Proof.
  intros Hrot Hent. rewrite build_layers_spec.
  unfold composition, rotation_steps, entanglement_steps, sub_block.
  rewrite Hrot, Hent. cbn [fmap list_fmap app].
  rewrite concat_replicate_nil.
  assert ((if skip_final_rotation_layer (self σ) then [] else [])
          = @nil (@step Block)) as -> by by destruct skip_final_rotation_layer.
  unfold perform, external. rewrite run_steps_initial. simpl.
  rewrite app_nil_r. by destruct σ.
Qed.

(** A parameter mapping that has the key "op" or "n_wires" clashes with
    the keywords that the sub-block passes itself: with at least one
    rotation operation, [build_rotation_block] raises a [TypeError] before
    any layer is constructed, and so does [build_layers] as soon as it has
    a rotation block to build ([reps >= 1] or the final rotation kept). *)
Theorem keyword_clash_raises σ :
  rotation_ops (self σ) ≠ [] →
  is_Some (heap_lookup (dicts σ) (rotation_layer_params (self σ)) !! "op") ∨
  is_Some (heap_lookup (dicts σ) (rotation_layer_params (self σ))
             !! "n_wires") →
  build_rotation_block construct σ
  = (inl (TypeError "got multiple values for keyword argument"), σ) ∧
  (1 ≤ reps (self σ) ∨ skip_final_rotation_layer (self σ) = false →
   build_layers construct σ
   = (inl (TypeError "got multiple values for keyword argument"), σ)).
Proof.
  intros Hops Hclash.
  set (kw := heap_lookup (dicts σ) (rotation_layer_params (self σ))) in *.
  assert (∀ rest w,
            run_steps construct (rotation_steps (self σ) (dicts σ) ++ rest) w
            = (inl (TypeError "got multiple values for keyword argument"), w))
    as Hfail.
  { intros rest w. unfold rotation_steps, sub_block. fold kw.
    destruct (rotation_ops (self σ)) as [|op ops]; [done|].
    cbn [fmap list_fmap app run_steps]. unfold invoke.
    destruct Hclash as [[v Hv]|[v Hv]]; rewrite Hv; [done|].
    by destruct (kw !! "op"). }
  split.
  - rewrite build_rotation_block_spec. unfold perform, external.
    rewrite <- (app_nil_r (rotation_steps _ _)), Hfail. by destruct σ.
  - intros Hsome. rewrite build_layers_spec. unfold perform, external.
    unfold composition. rewrite run_steps_initial.
    destruct (Z.to_nat (reps (self σ))) as [|k] eqn:Hk.
    + destruct Hsome as [Hone|Hkeep]; [lia|]. rewrite Hkeep.
      cbn [replicate concat app].
      rewrite <- (app_nil_r (rotation_steps _ _)), Hfail. by destruct σ.
    + cbn [replicate concat]. rewrite <- !app_assoc, Hfail. by destruct σ.
Qed.

(** A failure of [build_layers] is the first failure among the layer
    construction calls of the composition: every call before it has
    returned a block, the failing call raised the exception that the build
    raises, nothing after it has run, and the object and the dicts are as
    before. *)
Theorem build_layers_first_failure σ e σ' :
  build_layers construct σ = (inl e, σ') →
  ∃ before f op kw rest bs w,
    composition (self σ) (dicts σ)
    = before ++ Constructed f op (n_wires (self σ)) kw :: rest ∧
    run_steps construct before (world σ) = (inr bs, w) ∧
    invoke construct f op (n_wires (self σ)) kw w = (inl e, world σ') ∧
    self σ' = self σ ∧ dicts σ' = dicts σ.
Proof.
  rewrite build_layers_spec. unfold perform, external.
  destruct (run_steps construct _ (world σ)) as [r w1] eqn:E.
  intros [= -> <-].
  destruct (run_steps_first_failure _ _ _ _ E)
    as (pre & f & op & n & kw & rest & bs & u & Hsplit & Hpre & Hf).
  assert (n = n_wires (self σ)) as ->.
  { apply (constructed_in_composition (self σ) (dicts σ) f op n kw).
    rewrite Hsplit, elem_of_app. right. by left. }
  by exists pre, f, op, kw, rest, bs, u.
Qed.

Lemma composition_final_rotation s h :
  skip_final_rotation_layer s = false →
  composition s h
  = composition (set_skip_final_rotation_layer true s) h
    ++ rotation_steps s h.
Proof.
  intros Hskip. unfold composition. rewrite Hskip.
  cbn [set_skip_final_rotation_layer skip_final_rotation_layer reps].
  rewrite app_nil_r, <- !app_assoc. reflexivity.
Qed.

Lemma composition_one_more s h :
  0 ≤ reps s →
  skip_final_rotation_layer s = true →
  composition (set_reps (reps s + 1) s) h
  = composition s h ++ rotation_steps s h ++ entanglement_steps s h.
Proof.
  intros Hreps Hskip. unfold composition.
  cbn [set_reps skip_final_rotation_layer reps]. rewrite Hskip.
  replace (Z.to_nat (reps s + 1)) with (S (Z.to_nat (reps s))) by lia.
  rewrite replicate_S_end, concat_app. cbn [concat].
  rewrite !app_nil_r, <- !app_assoc. reflexivity.
Qed.

(** The build with the final rotation layer is the build without it
    followed by one more rotation block. *)
Theorem final_rotation_appended σ bs rs σ1 σ2 :
  skip_final_rotation_layer (self σ) = false →
  build_layers construct (with_self (set_skip_final_rotation_layer true) σ)
  = (inr bs, σ1) →
  build_rotation_block construct (with_world σ (world σ1)) = (inr rs, σ2) →
  build_layers construct σ = (inr (bs ++ rs), σ2).
Proof.
  intros Hskip. rewrite !build_layers_spec, build_rotation_block_spec.
  rewrite (composition_final_rotation _ _ Hskip).
  unfold perform, external. cbn [with_self with_world self dicts world].
  rewrite run_steps_app.
  destruct (run_steps construct (composition _ _) (world σ))
    as [[e|xs] w1]; [done|].
  intros [= <- <-]. cbn [world].
  destruct (run_steps construct (rotation_steps _ _) w1) as [[e|ys] w2];
    [done|].
  by intros [= <- <-].
Qed.

(** One more repetition appends one rotation block and one entanglement
    block: the build for [reps + 1] (final rotation skipped) is the build
    for [reps] followed by [build_rotation_block] and then
    [build_entanglement_block]. *)
Theorem one_more_repetition σ bs rot ent σ1 σ2 σ3 :
  0 ≤ reps (self σ) →
  skip_final_rotation_layer (self σ) = true →
  build_layers construct σ = (inr bs, σ1) →
  build_rotation_block construct σ1 = (inr rot, σ2) →
  build_entanglement_block construct σ2 = (inr ent, σ3) →
  build_layers construct (with_self (set_reps (reps (self σ) + 1)) σ)
  = (inr (bs ++ rot ++ ent),
     with_self (set_reps (reps (self σ) + 1)) σ3).
Proof.
  intros Hreps Hskip Hrun Hrot Hent.
  rewrite build_layers_spec in Hrun. unfold perform, external in Hrun.
  destruct (run_steps construct (composition _ _) (world σ))
    as [[e|xs] w1] eqn:E1; [done|].
  injection Hrun as <- <-.
  rewrite build_rotation_block_spec in Hrot.
  unfold perform, external in Hrot. cbn [self dicts world] in Hrot.
  destruct (run_steps construct (rotation_steps _ _) w1)
    as [[e|ys] w2] eqn:E2; [done|].
  injection Hrot as <- <-.
  rewrite build_entanglement_block_spec in Hent.
  unfold perform, external in Hent. cbn [self dicts world] in Hent.
  destruct (run_steps construct (entanglement_steps _ _) w2)
    as [[e|zs] w3] eqn:E3; [done|].
  injection Hent as <- <-.
  rewrite build_layers_spec. unfold perform, external.
  cbn [with_self self dicts world].
  rewrite (composition_one_more _ _ Hreps Hskip).
  by rewrite run_steps_app, E1, run_steps_app, E2, E3.
Qed.

(** ** Further properties of the constructors *)

(** The dispatch either keeps the caller's mapping and allocates nothing,
    or allocates one dict. *)
Lemma resolve_entanglement_cases (o : pyobj) (p : dict_ref) σ :
  ∃ o' p' h',
    resolve_entanglement o p σ
    = (inr (o', p'), MkState (self σ) h' (world σ)) ∧
    ((p' = p ∧ h' = dicts σ) ∨ ∃ d, (p', h') = heap_alloc (dicts σ) d) ∧
    (py_eq_str o "reverse_linear" = false →
     py_eq_str o "circular" = false → p' = p ∧ h' = dicts σ).
Proof.
  unfold resolve_entanglement.
  destruct (py_eq_str o "linear");
    [|destruct (py_eq_str o "reverse_linear");
      [|destruct (py_eq_str o "circular");
        [|destruct (py_eq_str o "full")]]].
  all: try (eexists _, p, (dicts σ);
            split; [by destruct σ|]; split; [by left|done]).
  all: eexists _, _, _; split; [reflexivity|]; split; [|done].
  all: right; by eexists.
Qed.

Lemma NLocal_init_defaults ro eo arch rl el r rp ep ic sk σ :
  NLocal_init construct wire_count ro eo arch rl el r rp ep ic sk σ
  = NLocal_init construct wire_count ro eo arch
      (Some (default (Class Op1QAllLayer) rl))
      (Some (default (Class Op2QAllLayer) el)) (Some (default 1 r))
      (Some (default NLocal_rotation_default rp))
      (Some (default NLocal_entanglement_default ep)) ic
      (Some (default false sk)) σ.
Proof. reflexivity. Qed.

(** The object and the dicts after [TwoLocal.__init__], returning or
    raising, in terms of what the dispatch yields. *)
Lemma TwoLocal_init_full ro eo arch rl e r ep ic sk σ :
  let out :=
    TwoLocal_init construct wire_count ro eo arch rl e r ep ic sk σ in
  ∃ el p' h1 n la,
    resolve_entanglement (default (Str "linear") e)
      (default TwoLocal_entanglement_default ep) σ
    = (inr (el, p'), MkState (self σ) h1 (world σ)) ∧
    dicts out.2 = (heap_alloc h1 trainable_params).2 ∧
    self out.2
    = MkNLocal ro (default (Class Op1QAllLayer) rl)
        (heap_alloc h1 trainable_params).1 eo el p' ic
        (default false sk) (default 1 r) n la ∧
    (out.1 = inr tt →
     wire_count arch = inr n ∧
     Forall2 (made_by construct) (composition (self out.2) (dicts out.2)) la).
Proof.
  unfold TwoLocal_init.
  destruct (resolve_entanglement_cases (default (Str "linear") e)
              (default TwoLocal_entanglement_default ep) σ)
    as (el & p' & h1 & Hres & _).
  cbv zeta. rewrite bind_eq, Hres, bind_eq, new_dict_eq.
  cbn [self dicts world fst snd].
  set (h2 := (heap_alloc h1 trainable_params).2).
  set (rp := (heap_alloc h1 trainable_params).1).
  set (σ2 := MkState (self σ) h2 (world σ)).
  destruct (NLocal_init_post ro eo arch (default (Class Op1QAllLayer) rl)
              el (default 1 r) rp p' ic (default false sk) σ2)
    as (n & la & w & Hst & Hok).
  cbv zeta in Hst, Hok.
  exists el, p', h1, n, la. split; [done|].
  rewrite Hst. cbn [self dicts]. split; [done|]. split; [done|].
  intros Hret. by apply Hok.
Qed.

Lemma heap_alloc_length h d :
  length (allocated (heap_alloc h d).2) = S (length (allocated h)).
Proof. simpl. rewrite length_app. simpl. lia. Qed.

(** No constructor of the file changes a dict that exists: after
    [NLocal.__init__] the dicts are as before, and after
    [TwoLocal.__init__] and the three presets every dict that existed
    before the call, the shared default dictionaries included, has the
    content it had (the constructors only create new dicts). *)
Theorem constructors_preserve_dicts σ (ref : dict_ref) :
  live (dicts σ) ref →
  (∀ ro eo arch rl el r rp ep ic sk,
     dicts (NLocal_init construct wire_count ro eo arch rl el r rp ep ic sk
              σ).2
     = dicts σ) ∧
  (∀ ro eo arch rl e r ep ic sk,
     heap_lookup
       (dicts (TwoLocal_init construct wire_count ro eo arch rl e r ep ic sk
                 σ).2) ref
     = heap_lookup (dicts σ) ref) ∧
  (∀ arch e r sk,
     heap_lookup
       (dicts (ExcitationPreserving_init construct wire_count arch e r sk
                 σ).2) ref
     = heap_lookup (dicts σ) ref) ∧
  (∀ arch e r sk,
     heap_lookup
       (dicts (EfficientSU2_init construct wire_count arch e r sk σ).2) ref
     = heap_lookup (dicts σ) ref) ∧
  (∀ arch e r sk,
     heap_lookup
       (dicts (RealAmplitudes_init construct wire_count arch e r sk σ).2) ref
     = heap_lookup (dicts σ) ref).
Proof.
  intros Hlive.
  assert (∀ ro eo arch rl e r ep ic sk τ,
            live (dicts τ) ref →
            heap_lookup
              (dicts (TwoLocal_init construct wire_count ro eo arch rl e r ep
                        ic sk τ).2) ref
            = heap_lookup (dicts τ) ref) as Htwo.
  { intros ro eo arch rl e r ep ic sk τ Hτ.
    destruct (TwoLocal_init_full ro eo arch rl e r ep ic sk τ)
      as (el & p' & h1 & n & la & Hres & -> & _).
    destruct (resolve_entanglement_cases (default (Str "linear") e)
                (default TwoLocal_entanglement_default ep) τ)
      as (el' & p'' & h1' & Hres' & Hcases & _).
    rewrite Hres in Hres'. injection Hres' as <- <- <-.
    destruct Hcases as [[_ ->]|[d Hd]].
    - by apply heap_lookup_alloc_live.
    - assert (h1 = (heap_alloc (dicts τ) d).2) as -> by by rewrite <- Hd.
      rewrite heap_lookup_alloc_live by by apply live_alloc.
      by apply heap_lookup_alloc_live. }
  split_and!.
  - intros. rewrite NLocal_init_defaults.
    destruct (NLocal_init_post ro eo arch (default (Class Op1QAllLayer) rl)
                (default (Class Op2QAllLayer) el) (default 1 r)
                (default NLocal_rotation_default rp)
                (default NLocal_entanglement_default ep) ic
                (default false sk) σ) as (n & la & w & -> & _).
    done.
  - intros. by apply Htwo.
  - intros. unfold ExcitationPreserving_init. cbv zeta.
    rewrite bind_eq, new_dict_eq. rewrite Htwo.
    + by apply heap_lookup_alloc_live.
    + by apply live_alloc.
  - intros. by apply Htwo.
  - intros. by apply Htwo.
Qed.

(** The rotation parameters of a [TwoLocal] object are a dict that the
    call itself creates: {has_params: True, trainable: True}, an object
    that did not exist before the call and that is not the entanglement
    parameter mapping, so that no two objects share it. *)
Theorem TwoLocal_rotation_params_fresh ro eo arch rl e r ep ic sk σ :
  live (dicts σ) (default TwoLocal_entanglement_default ep) →
  let out :=
    TwoLocal_init construct wire_count ro eo arch rl e r ep ic sk σ in
  heap_lookup (dicts out.2) (rotation_layer_params (self out.2))
  =
    {[ "has_params" := VBool true; "trainable" := VBool true ]} ∧
  ¬ live (dicts σ) (rotation_layer_params (self out.2)) ∧
  rotation_layer_params (self out.2) ≠ entanglement_layer_params (self out.2).
Proof.
  intros Hlive out. subst out.
  destruct (TwoLocal_init_full ro eo arch rl e r ep ic sk σ)
    as (el & p' & h1 & n & la & Hres & -> & -> & _).
  cbn [rotation_layer_params entanglement_layer_params].
  destruct (resolve_entanglement_cases (default (Str "linear") e)
              (default TwoLocal_entanglement_default ep) σ)
    as (el' & p'' & h1' & Hres' & Hcases & _).
  rewrite Hres in Hres'. injection Hres' as <- <- <-.
  split; [apply heap_lookup_alloc_new|].
  destruct Hcases as [[-> ->]|[d Hd]].
  - split.
    + simpl. lia.
    + intros Heq. rewrite <- Heq in Hlive. simpl in Hlive. lia.
  - assert (h1 = (heap_alloc (dicts σ) d).2) as -> by by rewrite <- Hd.
    assert (p' = (heap_alloc (dicts σ) d).1) as -> by by rewrite <- Hd.
    split.
    + cbn [fst heap_alloc live]. rewrite heap_alloc_length. lia.
    + cbn [fst heap_alloc]. rewrite heap_alloc_length. intros [= Heq]. lia.
Qed.

Lemma TwoLocal_caller_params ro eo arch rl e r ep ic sk σ :
  live (dicts σ) (default TwoLocal_entanglement_default ep) →
  default (Str "linear") e ≠ Str "reverse_linear" →
  default (Str "linear") e ≠ Str "circular" →
  let out :=
    TwoLocal_init construct wire_count ro eo arch rl e r ep ic sk σ in
  entanglement_layer_params (self out.2)
  = default TwoLocal_entanglement_default ep ∧
  heap_lookup (dicts out.2) (entanglement_layer_params (self out.2))
  = heap_lookup (dicts σ) (default TwoLocal_entanglement_default ep).
Proof.
  intros Hlive Hrev Hcirc out. subst out.
  destruct (TwoLocal_init_full ro eo arch rl e r ep ic sk σ)
    as (el & p' & h1 & n & la & Hres & -> & -> & _).
  cbn [entanglement_layer_params].
  destruct (resolve_entanglement_cases (default (Str "linear") e)
              (default TwoLocal_entanglement_default ep) σ)
    as (el' & p'' & h1' & Hres' & _ & Hkeep).
  rewrite Hres in Hres'. injection Hres' as <- <- <-.
  destruct Hkeep as [-> ->].
  - destruct (default (Str "linear") e) as [name|c]; [|done]. simpl.
    apply String.eqb_neq. congruence.
  - destruct (default (Str "linear") e) as [name|c]; [|done]. simpl.
    apply String.eqb_neq. congruence.
  - split; [done|]. by apply heap_lookup_alloc_live.
Qed.

(** Except for the topologies "reverse_linear" and "circular",
    [TwoLocal.__init__] hands the caller's entanglement parameter mapping
    on as it is: the object refers to the very dict object the caller
    passed (the shared default dictionary of the signature when the
    argument is omitted), with its content unchanged, and that content is
    what every entanglement layer is constructed on. *)
Theorem TwoLocal_keeps_caller_params ro eo arch rl e r ep ic sk σ σ' :
  live (dicts σ) (default TwoLocal_entanglement_default ep) →
  default (Str "linear") e ≠ Str "reverse_linear" →
  default (Str "linear") e ≠ Str "circular" →
  TwoLocal_init construct wire_count ro eo arch rl e r ep ic sk σ
  = (inr tt, σ') →
  entanglement_layer_params (self σ')
  = default TwoLocal_entanglement_default ep ∧
  heap_lookup (dicts σ') (entanglement_layer_params (self σ'))
  = heap_lookup (dicts σ) (default TwoLocal_entanglement_default ep) ∧
  ∀ bs σ'',
    build_entanglement_block construct σ' = (inr bs, σ'') →
    Forall2
      (λ op b,
         made_by construct
           (Constructed (entanglement_layer (self σ')) op (n_wires (self σ'))
              (heap_lookup (dicts σ)
                 (default TwoLocal_entanglement_default ep))) b)
      eo bs.
Proof.
  intros Hlive Hrev Hcirc Hrun.
  destruct (TwoLocal_caller_params ro eo arch rl e r ep ic sk σ
              Hlive Hrev Hcirc) as [Href Hlook].
  rewrite Hrun in Href, Hlook. cbn [snd] in Href, Hlook.
  split; [done|]. split; [done|].
  intros bs σ'' Hbuild.
  rewrite build_entanglement_block_spec in Hbuild.
  apply perform_inr in Hbuild as [Hmade _].
  unfold entanglement_steps, sub_block in Hmade. rewrite Hlook in Hmade.
  destruct (TwoLocal_init_full ro eo arch rl e r ep ic sk σ)
    as (el & p' & h1 & n & la & _ & _ & Hself & _).
  rewrite Hrun in Hself. cbn [snd] in Hself.
  assert (entanglement_ops (self σ') = eo) as Heo by by rewrite Hself.
  rewrite Heo in Hmade.
  exact (proj1 (Forall2_fmap_l _ _ _ _) Hmade).
Qed.

(** ** A topology name left in place of the entanglement layer *)

Lemma made_by_str name op n kw b :
  ¬ made_by construct (Constructed (Str name) op n kw) b.
Proof.
  intros (w & w' & H). apply invoke_inr in H as (c & [=] & _).
Qed.

Lemma entanglement_step_in_composition s h op :
  1 ≤ reps s → op ∈ entanglement_ops s →
  Constructed (entanglement_layer s) op (n_wires s)
    (heap_lookup h (entanglement_layer_params s)) ∈ composition s h.
Proof.
  intros Hreps Hop. unfold composition.
  destruct (Z.to_nat (reps s)) as [|k] eqn:Hk; [lia|].
  cbn [replicate concat]. rewrite !elem_of_app. right. left. left. right.
  unfold entanglement_steps, sub_block. apply list_elem_of_fmap. by exists op.
Qed.

Lemma resolve_entanglement_unknown (name : string) (p : dict_ref) σ :
  name ∉ ["linear"; "reverse_linear"; "circular"; "full"] →
  resolve_entanglement (Str name) p σ = (inr (Str name, p), σ).
Proof.
  intros Hname%resolution_table_unknown. revert Hname.
  unfold resolution_table, resolve_entanglement, py_eq_str.
  by repeat case_match.
Qed.

(** When the entanglement layer of the object is a [str] (what the
    dispatch of [TwoLocal] leaves for a name it does not know), the build
    never returns a sequence as soon as an entanglement block has to be
    built ([reps >= 1], at least one entanglement operation); and when the
    rotation block builds and the parameter mapping has no clashing key,
    the exception raised is the [TypeError] of calling a [str], raised
    after the first rotation block has been constructed. *)
Theorem str_entanglement_layer_fails σ name op ops :
  entanglement_layer (self σ) = Str name →
  entanglement_ops (self σ) = op :: ops →
  1 ≤ reps (self σ) →
  (∀ bs σ', build_layers construct σ ≠ (inr bs, σ')) ∧
  (∀ rs σ1,
     build_rotation_block construct σ = (inr rs, σ1) →
     heap_lookup (dicts σ) (entanglement_layer_params (self σ)) !! "op"
     = None →
     heap_lookup (dicts σ) (entanglement_layer_params (self σ)) !! "n_wires"
     = None →
     build_layers construct σ
     = (inl (TypeError "'str' object is not callable"), σ1)).
Proof.
  intros Hstr Hops Hreps. split.
  - intros bs σ' Hrun. rewrite build_layers_spec in Hrun.
    apply perform_inr in Hrun as [Hmade _].
    pose proof (entanglement_step_in_composition (self σ) (dicts σ) op Hreps)
      as Hin.
    rewrite Hops, Hstr in Hin. specialize (Hin ltac:(by left)).
    apply list_elem_of_lookup in Hin as [i Hi].
    destruct (Forall2_lookup_l _ _ _ _ _ Hmade Hi) as (b & _ & Hb).
    by apply made_by_str in Hb.
  - intros rs σ1 Hrot Hop Hwires.
    rewrite build_rotation_block_spec in Hrot.
    unfold perform, external in Hrot.
    destruct (run_steps construct (rotation_steps _ _) (world σ))
      as [[e|ys] w1] eqn:E; [done|].
    injection Hrot as <- <-.
    rewrite build_layers_spec. unfold perform, external, composition.
    rewrite run_steps_initial.
    destruct (Z.to_nat (reps (self σ))) as [|k] eqn:Hk; [lia|].
    cbn [replicate concat]. rewrite <- !app_assoc, run_steps_app, E.
    unfold entanglement_steps, sub_block. rewrite Hops, Hstr.
    cbn [fmap list_fmap app run_steps]. unfold invoke.
    by rewrite Hop, Hwires.
Qed.

(** [TwoLocal] called with a topology name that is not one of the four,
    at least one entanglement operation and [reps >= 1] never returns an
    object: the constructor raises. *)
Theorem TwoLocal_unknown_topology_raises ro eo arch rl name r ep ic sk σ :
  name ∉ ["linear"; "reverse_linear"; "circular"; "full"] →
  eo ≠ [] →
  1 ≤ default 1 r →
  ∃ e,
    (TwoLocal_init construct wire_count ro eo arch rl (Some (Str name)) r ep
       ic sk σ).1 = inl e.
Proof.
  intros Hname Heo Hreps.
  destruct (TwoLocal_init_full ro eo arch rl (Some (Str name)) r ep ic sk σ)
    as (el & p' & h1 & n & la & Hres & _ & Hself & Hok).
  cbn [default from_option id] in Hres.
  rewrite (resolve_entanglement_unknown name _ σ Hname) in Hres.
  injection Hres as <- <- _.
  destruct (TwoLocal_init construct wire_count ro eo arch rl
              (Some (Str name)) r ep ic sk σ) as [[e|[]] σ'] eqn:E;
    [by exists e|].
  exfalso. destruct (Hok eq_refl) as [_ Hmade].
  cbn [snd] in Hself, Hmade. rewrite Hself in Hmade.
  destruct eo as [|op eo]; [done|].
  match type of Hmade with
  | Forall2 _ (composition ?s ?h) _ =>
      pose proof (entanglement_step_in_composition s h op Hreps
                    ltac:(by left)) as Hin
  end.
  cbn [entanglement_layer] in Hin.
  apply list_elem_of_lookup in Hin as [i Hi].
  destruct (Forall2_lookup_l _ _ _ _ _ Hmade Hi) as (b & _ & Hb).
  by apply made_by_str in Hb.
Qed.

(** ** The presets, for every number of repetitions *)

Lemma lookup_alternating {A} (n : nat) (x y : A) (rest : list A) (i : nat) :
  (concat (replicate n [x; y]) ++ rest) !! i
  = if (i <? 2 * n)%nat then Some (if Nat.odd i then y else x)
    else rest !! (i - 2 * n)%nat.
Proof.
  revert i. induction n as [|n IH]; intros i.
  - simpl. by rewrite Nat.sub_0_r.
  - cbn [replicate concat app].
    replace (2 * S n)%nat with (S (S (2 * n))) by lia.
    destruct i as [|[|i]]; [done..|].
    cbn [lookup list_lookup]. rewrite IH. reflexivity.
Qed.

(** When [RealAmplitudes.__init__] returns, the layers of the object are
    [2 * reps] blocks (none for a negative [reps]) alternating a rotation
    block on [RY] and an entanglement block on [CNOT], followed, unless the
    final rotation layer is skipped, by one more rotation block on [RY];
    [reps] defaults to 3. *)
Theorem RealAmplitudes_layers arch e r sk σ σ' :
  RealAmplitudes_init construct wire_count arch e r sk σ = (inr tt, σ') →
  let s := self σ' in
  let k := Z.to_nat (default 3 r) in
  let rotation :=
    Constructed (Class Op1QAllLayer) RY (n_wires s)
      {[ "has_params" := VBool true; "trainable" := VBool true ]} in
  let entanglement :=
    Constructed (entanglement_layer s) CNOT (n_wires s)
      (heap_lookup (dicts σ') (entanglement_layer_params s)) in
  length (layers_all s)
  = (2 * k + (if default false sk then 0 else 1))%nat ∧
  ∀ i b,
    layers_all s !! i = Some b →
    made_by construct
      (if (i <? 2 * k)%nat && Nat.odd i then entanglement else rotation) b.
Proof.
  unfold RealAmplitudes_init. cbv zeta. intros Hrun.
  destruct (TwoLocal_init_full [RY] [CNOT] arch None
              (Some (default (Str "reverse_linear") e))
              (Some (default 3 r)) None None
              (Some (default false sk)) σ)
    as (el & p' & h1 & n & la & _ & Hdicts & Hself & Hok).
  rewrite Hrun in Hdicts, Hself, Hok. cbn [fst snd] in Hdicts, Hself, Hok.
  cbn [default from_option id] in Hself.
  destruct (Hok eq_refl) as [_ Hmade]. clear Hok.
  assert (heap_lookup (dicts σ') (rotation_layer_params (self σ'))
          = trainable_params) as Hrp.
  { rewrite Hself, Hdicts. apply heap_lookup_alloc_new. }
  revert Hmade. unfold composition, initial_steps, rotation_steps,
    entanglement_steps, sub_block. rewrite Hrp, Hself.
  cbn [initial_circuit reps skip_final_rotation_layer rotation_ops
    entanglement_ops rotation_layer entanglement_layer n_wires
    entanglement_layer_params layers_all fmap list_fmap].
  intros Hmade. split.
  - apply Forall2_length in Hmade. rewrite <- Hmade.
    rewrite !length_app, length_concat_replicate.
    destruct (default false sk); cbn [length app]; lia.
  - intros i b Hb.
    destruct (Forall2_lookup_r _ _ _ _ _ Hmade Hb) as (st & Hst & Hby).
    cbn [app] in Hst. rewrite lookup_alternating in Hst.
    destruct (i <? 2 * Z.to_nat (default 3%Z r))%nat eqn:Hi.
    + injection Hst as <-. cbn [andb]. by destruct (Nat.odd i).
    + cbn [andb]. destruct (default false sk).
      * by rewrite lookup_nil in Hst.
      * apply list_lookup_singleton_Some in Hst as [_ <-]. done.
Qed.

(** When [ExcitationPreserving.__init__] returns, the object has
    [3 * reps] layers (none for a negative [reps]), plus one unless the
    final rotation layer is skipped; [reps] defaults to 3.  Unless the
    topology is "reverse_linear" or "circular", every entanglement layer is
    constructed on {has_params: True, trainable: True}. *)
Theorem ExcitationPreserving_layers arch e r sk σ σ' :
  ExcitationPreserving_init construct wire_count arch e r sk σ
  = (inr tt, σ') →
  let s := self σ' in
  rotation_ops s = [RZ] ∧
  entanglement_ops s = [RXX; RYY] ∧
  reps s = default 3 r ∧
  length (layers_all s)
  = (3 * Z.to_nat (default 3%Z r)
     + (if default false sk then 0 else 1))%nat ∧
  (default (Str "full") e ≠ Str "reverse_linear" →
   default (Str "full") e ≠ Str "circular" →
   heap_lookup (dicts σ') (entanglement_layer_params s) =
    {[ "has_params" := VBool true; "trainable" := VBool true ]}).
Proof.
  unfold ExcitationPreserving_init. cbv zeta.
  rewrite bind_eq, new_dict_eq.
  set (σ0 := MkState (self σ) (heap_alloc (dicts σ) trainable_params).2
               (world σ)).
  set (p0 := (heap_alloc (dicts σ) trainable_params).1).
  intros Hrun.
  destruct (TwoLocal_init_full [RZ] [RXX; RYY] arch None
              (Some (default (Str "full") e)) (Some (default 3 r))
              (Some p0) None (Some (default false sk)) σ0)
    as (el & p' & h1 & n & la & _ & _ & Hself & Hok).
  rewrite Hrun in Hself, Hok. cbn [fst snd] in Hself, Hok.
  cbn [default from_option id] in Hself.
  destruct (Hok eq_refl) as [_ Hmade]. clear Hok.
  split; [by rewrite Hself|]. split; [by rewrite Hself|].
  split; [by rewrite Hself|]. split.
  - apply Forall2_length in Hmade. rewrite length_composition in Hmade.
    rewrite Hself in Hmade |- *.
    cbn [initial_circuit reps skip_final_rotation_layer rotation_ops
      entanglement_ops layers_all length] in Hmade |- *.
    rewrite <- Hmade. destruct (default false sk); lia.
  - intros Hrev Hcirc.
    destruct (TwoLocal_caller_params [RZ] [RXX; RYY] arch None
                (Some (default (Str "full") e)) (Some (default 3 r))
                (Some p0) None (Some (default false sk)) σ0
                (live_alloc_new _ _) Hrev Hcirc) as [Href Hlook].
    rewrite Hrun in Href, Hlook. cbn [fst snd default from_option id]
      in Href, Hlook.
    rewrite Hlook. apply heap_lookup_alloc_new.
Qed.

Lemma lookup_periodic {A} (n : nat) (x y z : A) (rest : list A) (i : nat) :
  (concat (replicate n [x; y; z]) ++ rest) !! i
  = if (i <? 3 * n)%nat
    then Some (match (i mod 3)%nat with
               | O => x
               | S O => y
               | _ => z
               end)
    else rest !! (i - 3 * n)%nat.
Proof.
  revert i. induction n as [|n IH]; intros i.
  - simpl. by rewrite Nat.sub_0_r.
  - cbn [replicate concat app].
    replace (3 * S n)%nat with (S (S (S (3 * n)))) by lia.
    destruct i as [|[|[|i]]]; [done..|].
    cbn [lookup list_lookup]. rewrite IH.
    replace (S (S (S i)) mod 3)%nat with (i mod 3)%nat; [reflexivity|].
    replace (S (S (S i))) with (i + 1 * 3)%nat by lia.
    by rewrite Nat.Div0.mod_add.
Qed.

(** When [EfficientSU2.__init__] returns, the object has [3 * reps]
    layers (none for a negative [reps]), plus two unless the final rotation
    layer is skipped, and the layer at index [i] is made on the gate that
    [i mod 3] selects: a rotation block on [RY], a rotation block on [RZ],
    an entanglement block on [CNOT]. *)
Theorem EfficientSU2_layers arch e r sk σ σ' :
  EfficientSU2_init construct wire_count arch e r sk σ = (inr tt, σ') →
  let s := self σ' in
  let rotation op :=
    Constructed (Class Op1QAllLayer) op (n_wires s)
      {[ "has_params" := VBool true; "trainable" := VBool true ]} in
  let entanglement :=
    Constructed (entanglement_layer s) CNOT (n_wires s)
      (heap_lookup (dicts σ') (entanglement_layer_params s)) in
  length (layers_all s)
  = (3 * Z.to_nat (default 3%Z r)
     + (if default false sk then 0 else 2))%nat ∧
  ∀ i b,
    layers_all s !! i = Some b →
    made_by construct
      (match (i mod 3)%nat with
       | O => rotation RY
       | S O => rotation RZ
       | _ => entanglement
       end) b.
Proof.
  unfold EfficientSU2_init. cbv zeta. intros Hrun.
  destruct (TwoLocal_init_full [RY; RZ] [CNOT] arch None
              (Some (default (Str "reverse_linear") e))
              (Some (default 3 r)) None None
              (Some (default false sk)) σ)
    as (el & p' & h1 & n & la & _ & Hdicts & Hself & Hok).
  rewrite Hrun in Hdicts, Hself, Hok. cbn [fst snd] in Hdicts, Hself, Hok.
  cbn [default from_option id] in Hself.
  destruct (Hok eq_refl) as [_ Hmade]. clear Hok.
  assert (heap_lookup (dicts σ') (rotation_layer_params (self σ'))
          = trainable_params) as Hrp.
  { rewrite Hself, Hdicts. apply heap_lookup_alloc_new. }
  revert Hmade. unfold composition, initial_steps, rotation_steps,
    entanglement_steps, sub_block. rewrite Hrp, Hself.
  cbn [initial_circuit reps skip_final_rotation_layer rotation_ops
    entanglement_ops rotation_layer entanglement_layer n_wires
    entanglement_layer_params layers_all fmap list_fmap].
  intros Hmade. split.
  - apply Forall2_length in Hmade. rewrite <- Hmade.
    rewrite !length_app, length_concat_replicate.
    destruct (default false sk); cbn [length app]; lia.
  - intros i b Hb.
    destruct (Forall2_lookup_r _ _ _ _ _ Hmade Hb) as (st & Hst & Hby).
    cbn [app] in Hst. rewrite lookup_periodic in Hst.
    destruct (Nat.ltb_spec i (3 * Z.to_nat (default 3%Z r))) as [Hi|Hi].
    + injection Hst as <-. exact Hby.
    + destruct (default false sk); [by rewrite lookup_nil in Hst|].
      set (k := Z.to_nat (default 3%Z r)) in *.
      destruct (i - 3 * k)%nat as [|[|j]] eqn:Hj; cbn in Hst.
      * injection Hst as <-.
        replace i with (k * 3)%nat by lia.
        by rewrite Nat.Div0.mod_mul.
      * injection Hst as <-.
        replace i with (1 + k * 3)%nat by lia.
        by rewrite Nat.Div0.mod_add.
      * done.
Qed.

(** When [NLocal.__init__] returns, the object holds each argument under
    its name, an omitted one being the default of the signature
    ([Op1QAllLayer], [Op2QAllLayer], [reps = 1], the two shared default
    dictionaries, the final rotation kept); unlike [TwoLocal] it keeps the
    caller's rotation parameter mapping; no dict is created or changed, and
    the layers are the composition of that configuration. *)
Theorem NLocal_init_configuration ro eo arch rl el r rp ep ic sk σ σ' :
  NLocal_init construct wire_count ro eo arch rl el r rp ep ic sk σ
  = (inr tt, σ') →
  let s := self σ' in
  rotation_ops s = ro ∧
  rotation_layer s = default (Class Op1QAllLayer) rl ∧
  rotation_layer_params s = default NLocal_rotation_default rp ∧
  entanglement_ops s = eo ∧
  entanglement_layer s = default (Class Op2QAllLayer) el ∧
  entanglement_layer_params s = default NLocal_entanglement_default ep ∧
  initial_circuit s = ic ∧
  skip_final_rotation_layer s = default false sk ∧
  reps s = default 1 r ∧
  dicts σ' = dicts σ ∧
  wire_count arch = inr (n_wires s) ∧
  Forall2 (made_by construct) (composition s (dicts σ)) (layers_all s).
Proof.
  rewrite NLocal_init_defaults. intros Hrun.
  destruct (NLocal_init_post ro eo arch (default (Class Op1QAllLayer) rl)
              (default (Class Op2QAllLayer) el) (default 1 r)
              (default NLocal_rotation_default rp)
              (default NLocal_entanglement_default ep) ic
              (default false sk) σ) as (n & la & w & Hst & Hok).
  cbv zeta in Hst, Hok. rewrite Hrun in Hst, Hok. cbn [fst snd] in Hst, Hok.
  destruct (Hok eq_refl) as [Hwires Hmade]. subst σ'.
  cbn [self dicts rotation_ops rotation_layer rotation_layer_params
    entanglement_ops entanglement_layer entanglement_layer_params
    initial_circuit skip_final_rotation_layer reps n_wires layers_all].
  by split_and!.
Qed.

End Proofs.

(** * The theorems at concrete configurations *)

Import Demo.

Lemma build_layers_length_witness :
  let σ := sample_state Op1QAllLayer 2 (Some (Circuit "prep")) false 3 0 in
  let bs := [Circuit "prep"; ry 3 0; rz 3 1; cnot 3 2; ry 3 3; rz 3 4;
             cnot 3 5; ry 3 6; rz 3 7] in
  build_layers construct σ
  = (inr bs, sample_state Op1QAllLayer 2 (Some (Circuit "prep")) false 3 8) ∧
  Z.of_nat (length bs) = 1 + 2 * (2 + 1) + 2.
Proof.
  intros σ bs.
  assert (build_layers construct σ
          = (inr bs,
             sample_state Op1QAllLayer 2 (Some (Circuit "prep")) false 3 8))
    as Hrun by (vm_compute; reflexivity).
  split; [exact Hrun|].
  exact (proj1 (build_layers_length construct σ bs _ ltac:(simpl; lia) Hrun)).
Defined.

Lemma initial_circuit_first_witness :
  let σ := sample_state Op1QAllLayer 1 (Some (Circuit "prep")) true 2 0 in
  let σ0 := sample_state Op1QAllLayer 1 None true 2 0 in
  let bs := [Circuit "prep"; ry 2 0; rz 2 1; cnot 2 2] in
  build_layers construct σ
  = (inr bs, sample_state Op1QAllLayer 1 (Some (Circuit "prep")) true 2 3) ∧
  bs !! 0%nat = Some (Circuit "prep") ∧
  (build_layers construct
     (with_self (set_initial_circuit (Some (Circuit "prep"))) σ0)).1
  = sum_map id (cons (Circuit "prep")) (build_layers construct σ0).1.
Proof.
  intros σ σ0 bs.
  assert (build_layers construct σ
          = (inr bs,
             sample_state Op1QAllLayer 1 (Some (Circuit "prep")) true 2 3))
    as Hrun by (vm_compute; reflexivity).
  split; [exact Hrun|]. split.
  - exact (proj1 (initial_circuit_first construct σ) _ _ _ eq_refl Hrun).
  - exact (proj2 (initial_circuit_first construct σ0) eq_refl _).
Defined.

Lemma build_layers_deterministic_witness :
  let σ1 := sample_state Op1QAllLayer 1 None true 2 0 in
  let σ2 := sample_state Op1QAllLayer 1 None true 2 7 in
  let bs1 := [ry 2 0; rz 2 1; cnot 2 2] in
  let bs2 := [ry 2 7; rz 2 8; cnot 2 9] in
  build_layers construct σ1
  = (inr bs1, sample_state Op1QAllLayer 1 None true 2 3) ∧
  build_layers construct σ2
  = (inr bs2, sample_state Op1QAllLayer 1 None true 2 10) ∧
  length bs1 = length bs2 ∧
  Forall2 (made_by construct) (composition (self σ1) (dicts σ1)) bs1 ∧
  Forall2 (made_by construct) (composition (self σ1) (dicts σ1)) bs2.
Proof.
  intros σ1 σ2 bs1 bs2.
  assert (build_layers construct σ1
          = (inr bs1, sample_state Op1QAllLayer 1 None true 2 3))
    as Hrun1 by (vm_compute; reflexivity).
  assert (build_layers construct σ2
          = (inr bs2, sample_state Op1QAllLayer 1 None true 2 10))
    as Hrun2 by (vm_compute; reflexivity).
  split; [exact Hrun1|]. split; [exact Hrun2|].
  exact (build_layers_deterministic construct σ1 σ2 bs1 bs2 _ _
           eq_refl eq_refl eq_refl Hrun1 Hrun2).
Defined.

Lemma negative_reps_as_zero_witness :
  let σ := sample_state Op1QAllLayer (-3) (Some (Circuit "prep")) false 2 0 in
  reps (self σ) < 0 ∧
  build_rotation_block construct σ
  = (inr [ry 2 0; rz 2 1],
     sample_state Op1QAllLayer (-3) (Some (Circuit "prep")) false 2 2) ∧
  build_layers construct σ
  = (inr [Circuit "prep"; ry 2 0; rz 2 1],
     sample_state Op1QAllLayer (-3) (Some (Circuit "prep")) false 2 2) ∧
  (build_layers construct σ).1
  = (build_layers construct (with_self (set_reps 0) σ)).1.
Proof.
  intros σ.
  assert (reps (self σ) < 0) as Hneg by (simpl; lia).
  assert (build_rotation_block construct σ
          = (inr [ry 2 0; rz 2 1],
             sample_state Op1QAllLayer (-3) (Some (Circuit "prep"))
               false 2 2))
    as Hrot by (vm_compute; reflexivity).
  destruct (negative_reps_as_zero construct σ Hneg)
    as (Hsame & _ & _ & Hkeep).
  split; [exact Hneg|]. split; [exact Hrot|].
  split; [exact (Hkeep eq_refl _ _ Hrot)|exact Hsame].
Defined.

Lemma build_preserves_configuration_witness :
  let σ := sample_state Op1QAllLayer 2 None false 3 0 in
  self (build_layers construct σ).2 = self σ ∧
  dicts (build_layers construct σ).2 = dicts σ.
Proof.
  intros σ. exact (proj1 (build_preserves_configuration construct σ)).
Defined.

(** C6, as stated, fails: with a wire count of 0 the build returns a whole
    sequence, each layer constructed on 0 wires. *)
Lemma zero_wires_build_returns :
  let σ := sample_state Op1QAllLayer 1 None true 0 0 in
  n_wires (self σ) < 1 ∧
  build_layers construct σ
  = (inr [ry 0 0; rz 0 1; cnot 0 2],
     sample_state Op1QAllLayer 1 None true 0 3).
Proof.
  intros σ. split; [simpl; lia|]. vm_compute. reflexivity.
Qed.

Lemma build_layers_ignores_wire_count_witness :
  let failing := sample_state (UserLayer "Broken") 1 None true 0 0 in
  let fine := sample_state Op1QAllLayer 1 None true 0 0 in
  build_layers construct failing = (inl (Raised "ValueError"), failing) ∧
  (∃ f op kw w w',
     Constructed f op 0 kw ∈ composition (self failing) (dicts failing) ∧
     invoke construct f op 0 kw w = (inl (Raised "ValueError"), w')) ∧
  (∃ bs σ', build_layers construct fine = (inr bs, σ') ∧ length bs = 3%nat).
Proof.
  intros failing fine.
  assert (build_layers construct failing
          = (inl (Raised "ValueError"), failing))
    as Hrun by (vm_compute; reflexivity).
  split; [exact Hrun|]. split.
  - exact (proj1 (build_layers_ignores_wire_count construct failing)
             _ _ Hrun).
  - refine (proj2 (build_layers_ignores_wire_count construct fine) _).
    intros f op n kw Hin w.
    apply elem_of_cons in Hin as [[= -> -> -> ->]|Hin];
      [by exists (ry 0 w), (S w)|].
    apply elem_of_cons in Hin as [[= -> -> -> ->]|Hin];
      [by exists (rz 0 w), (S w)|].
    apply elem_of_cons in Hin as [[= -> -> -> ->]|Hin];
      [by exists (cnot 0 w), (S w)|].
    by apply elem_of_nil in Hin.
Defined.

(** C2, as stated, fails: a name that is not a known topology raises
    nothing; it is kept in place of the layer kind, and [TwoLocal]
    constructs an object with it when no entanglement layer has to be
    built. *)
Lemma unknown_topology_not_raised :
  ("star" ∉ ["linear"; "reverse_linear"; "circular"; "full"]) ∧
  resolve_entanglement (Str "star") TwoLocal_entanglement_default start
  = (inr (Str "star", TwoLocal_entanglement_default), start) ∧
  (TwoLocal_init construct wire_count [RY] [] (Some 2) None
     (Some (Str "star")) None None None None start).1 = inr tt.
Proof.
  split; [|split; vm_compute; reflexivity].
  intros Hin. repeat (apply elem_of_cons in Hin as [[=]|Hin]).
  by apply elem_of_nil in Hin.
Qed.

Lemma resolve_entanglement_names_witness :
  resolve_entanglement (Str "star") (Allocated 0) start
  = (inr (Str "star", Allocated 0), start) ∧
  ∃ p' σ',
    resolve_entanglement (Str "circular") TwoLocal_entanglement_default start
    = (inr (Class Op2QAllLayer, p'), σ') ∧
    ({[ "circular" := VBool true ]} : kwargs) ⊆ heap_lookup (dicts σ') p'.
Proof.
  split.
  - apply (resolve_entanglement_names "star" (Allocated 0) start).
    intros Hin. repeat (apply elem_of_cons in Hin as [[=]|Hin]).
    by apply elem_of_nil in Hin.
  - destruct (proj2 (resolve_entanglement_names "circular"
                       TwoLocal_entanglement_default start)
                Op2QAllLayer {[ "circular" := VBool true ]} eq_refl)
      as (p' & σ' & Hres & Hsub & _).
    exists p', σ'. split; [exact Hres|exact Hsub].
Defined.

(** C3 fails on the code: [TwoLocal] with topology "reverse_linear" and
    the caller's mapping {has_params: True, trainable: True} (as
    [ExcitationPreserving] passes it) constructs the entanglement layer on
    {wire_reverse: True} alone; the caller's keys are dropped, not
    merged. *)
Lemma reverse_linear_drops_caller_params :
  let σ := MkState blank (Heap ∅ ∅ ∅ [trainable_params]) 0%nat in
  let out :=
    TwoLocal_init construct wire_count [RY] [RXX] (Some 2) None
      (Some (Str "reverse_linear")) (Some 1) (Some (Allocated 0)) None
      (Some true) σ in
  out.1 = inr tt ∧
  layers_all (self out.2)
  = [ry 2 0; Built Op2QAllLayer RXX 2 reversed 1] ∧
  reversed ≠ reversed ∪ trainable_params ∧
  (reversed ∪ trainable_params) !! "has_params" = Some (VBool true) ∧
  reversed !! "has_params" = None.
Proof.
  intros σ out.
  assert (reversed !! "has_params" = None) as Hnone
    by (vm_compute; reflexivity).
  assert ((reversed ∪ trainable_params) !! "has_params" = Some (VBool true))
    as Hsome by (vm_compute; reflexivity).
  split; [vm_compute; reflexivity|]. split; [vm_compute; reflexivity|].
  split; [|by split].
  intros Heq. rewrite <- Heq, Hnone in Hsome. discriminate.
Qed.

Lemma EfficientSU2_configuration_witness :
  let out := EfficientSU2_init construct wire_count (Some 2) None None None
               start in
  out.1 = inr tt ∧
  rotation_ops (self out.2) = [RY; RZ] ∧
  entanglement_ops (self out.2) = [CNOT] ∧
  heap_lookup (dicts out.2) (rotation_layer_params (self out.2))
  = {[ "has_params" := VBool true; "trainable" := VBool true ]} ∧
  reps (self out.2) = 3 ∧
  entanglement_layer (self out.2) = Class Op2QAllLayer ∧
  heap_lookup (dicts out.2) (entanglement_layer_params (self out.2))
  = reversed ∧
  length (layers_all (self out.2)) = 11%nat.
Proof.
  intros out.
  destruct (EfficientSU2_configuration construct wire_count (Some 2)
              None None None start)
    as (Hrot & Hent & _ & Hrp & _ & Hreps & _ & _ & Hdefault & _).
  destruct (Hdefault eq_refl) as [Hlayer Hparams].
  split; [vm_compute; reflexivity|].
  split; [exact Hrot|]. split; [exact Hent|]. split; [exact Hrp|].
  split; [exact Hreps|].
  split; [exact Hlayer|]. split; [exact Hparams|].
  vm_compute. reflexivity.
Defined.

Lemma ExcitationPreserving_one_rep_witness :
  ExcitationPreserving_init construct wire_count (Some 2) None (Some 1)
    (Some true) start
  = (inr tt, excitation_preserving) ∧
  ∃ b1 b2 b3,
    layers_all (self excitation_preserving) = [b1; b2; b3] ∧
    made_by construct
      (Constructed (Class Op1QAllLayer) RZ 2 trainable_params) b1 ∧
    made_by construct
      (Constructed (Class Op2QDenseLayer) RXX 2 trainable_params) b2 ∧
    made_by construct
      (Constructed (Class Op2QDenseLayer) RYY 2 trainable_params) b3.
Proof.
  assert (ExcitationPreserving_init construct wire_count (Some 2) None
            (Some 1) (Some true) start
          = (inr tt, excitation_preserving))
    as Hrun by (vm_compute; reflexivity).
  split; [exact Hrun|].
  destruct (ExcitationPreserving_one_rep construct wire_count (Some 2) None
              start excitation_preserving Hrun)
    as (_ & _ & b1 & b2 & b3 & Hall & H1 & H2 & H3).
  exists b1, b2, b3. split; [exact Hall|]. split; [exact H1|].
  split; [exact H2|exact H3].
Defined.

(** * The further properties at concrete objects *)

Import Cases.

Lemma sub_blocks_in_operation_order_witness :
  let σ := sample_state Op1QAllLayer 1 None true 2 0 in
  build_rotation_block construct σ
  = (inr [ry 2 0; rz 2 1], sample_state Op1QAllLayer 1 None true 2 2) ∧
  Forall2
    (λ op b,
       made_by construct
         (Constructed (Class Op1QAllLayer) op 2 trainable_params) b)
    [RY; RZ] [ry 2 0; rz 2 1].
Proof.
  intros σ.
  assert (build_rotation_block construct σ
          = (inr [ry 2 0; rz 2 1], sample_state Op1QAllLayer 1 None true 2 2))
    as Hrun by (vm_compute; reflexivity).
  split; [exact Hrun|].
  exact (proj1 (sub_blocks_in_operation_order construct σ) _ _ Hrun).
Defined.

Lemma no_operations_no_construction_witness :
  build_layers construct idle = (inr [Circuit "prep"], idle).
Proof.
  exact (no_operations_no_construction construct idle eq_refl eq_refl).
Defined.

Lemma keyword_clash_raises_witness :
  build_rotation_block construct clashing
  = (inl (TypeError "got multiple values for keyword argument"), clashing) ∧
  build_layers construct clashing
  = (inl (TypeError "got multiple values for keyword argument"), clashing).
Proof.
  assert (rotation_ops (self clashing) ≠ []) as Hops by done.
  assert (is_Some (heap_lookup (dicts clashing)
                     (rotation_layer_params (self clashing)) !! "op"))
    as Hkey by (exists (VStr "RX"); vm_compute; reflexivity).
  destruct (keyword_clash_raises construct clashing Hops (or_introl Hkey))
    as [Hblock Hbuild].
  split; [exact Hblock|]. apply Hbuild. left. simpl. lia.
Defined.

Lemma build_layers_first_failure_witness :
  build_layers construct broken_entanglement
  = (inl (Raised "ValueError"), with_world broken_entanglement 2%nat) ∧
  ∃ before f op kw rest bs w,
    composition (self broken_entanglement) (dicts broken_entanglement)
    = before ++ Constructed f op 2 kw :: rest ∧
    run_steps construct before 0%nat = (inr bs, w) ∧
    invoke construct f op 2 kw w = (inl (Raised "ValueError"), 2%nat).
Proof.
  assert (build_layers construct broken_entanglement
          = (inl (Raised "ValueError"), with_world broken_entanglement 2%nat))
    as Hrun by (vm_compute; reflexivity).
  split; [exact Hrun|].
  destruct (build_layers_first_failure construct broken_entanglement _ _ Hrun)
    as (before & f & op & kw & rest & bs & w & Hsplit & Hbefore & Hfail & _).
  by exists before, f, op, kw, rest, bs, w.
Defined.

Lemma final_rotation_appended_witness :
  build_layers construct (sample_state Op1QAllLayer 1 None false 2 0)
  = (inr ([ry 2 0; rz 2 1; cnot 2 2] ++ [ry 2 3; rz 2 4]),
     sample_state Op1QAllLayer 1 None false 2 5).
Proof.
  apply (final_rotation_appended construct
           (sample_state Op1QAllLayer 1 None false 2 0) _ _
           (sample_state Op1QAllLayer 1 None true 2 3)).
  - reflexivity.
  - vm_compute. reflexivity.
  - vm_compute. reflexivity.
Defined.

Lemma one_more_repetition_witness :
  build_layers construct (sample_state Op1QAllLayer 2 None true 2 0)
  = (inr ([ry 2 0; rz 2 1; cnot 2 2] ++ [ry 2 3; rz 2 4] ++ [cnot 2 5]),
     sample_state Op1QAllLayer 2 None true 2 6).
Proof.
  apply (one_more_repetition construct
           (sample_state Op1QAllLayer 1 None true 2 0) _ _ _
           (sample_state Op1QAllLayer 1 None true 2 3)
           (sample_state Op1QAllLayer 1 None true 2 5)
           (sample_state Op1QAllLayer 1 None true 2 6)).
  - simpl. lia.
  - reflexivity.
  - vm_compute. reflexivity.
  - vm_compute. reflexivity.
  - vm_compute. reflexivity.
Defined.

Lemma constructors_preserve_dicts_witness :
  heap_lookup
    (dicts (ExcitationPreserving_init construct wire_count (Some 2)
              (Some (Str "circular")) None None with_caller_dicts).2)
    (Allocated 1)
  = reversed.
Proof.
  assert (live (dicts with_caller_dicts) (Allocated 1)) as Hlive
    by (simpl; lia).
  destruct (constructors_preserve_dicts construct wire_count
              with_caller_dicts (Allocated 1) Hlive)
    as (_ & _ & Hexc & _).
  exact (Hexc (Some 2) (Some (Str "circular")) None None).
Defined.

Lemma TwoLocal_rotation_params_fresh_witness :
  let out :=
    TwoLocal_init construct wire_count [RY] [CNOT] (Some 2) None None None
      (Some (Allocated 1)) None None with_caller_dicts in
  heap_lookup (dicts out.2) (rotation_layer_params (self out.2))
  =
    {[ "has_params" := VBool true; "trainable" := VBool true ]} ∧
  ¬ live (dicts with_caller_dicts) (rotation_layer_params (self out.2)) ∧
  rotation_layer_params (self out.2) ≠ entanglement_layer_params (self out.2).
Proof.
  apply (TwoLocal_rotation_params_fresh construct wire_count [RY] [CNOT]
           (Some 2) None None None (Some (Allocated 1)) None None
           with_caller_dicts).
  simpl. lia.
Defined.

Lemma TwoLocal_keeps_caller_params_witness :
  let out :=
    TwoLocal_init construct wire_count [RY] [RXX] (Some 2) None
      (Some (Str "full")) None (Some (Allocated 0)) None None
      with_caller_dicts in
  out.1 = inr tt ∧
  entanglement_layer_params (self out.2) = Allocated 0 ∧
  heap_lookup (dicts out.2) (entanglement_layer_params (self out.2))
  = trainable_params.
Proof.
  intros out.
  assert (out = (inr tt, out.2)) as Hrun by (vm_compute; reflexivity).
  destruct (TwoLocal_keeps_caller_params construct wire_count [RY] [RXX]
              (Some 2) None (Some (Str "full")) None (Some (Allocated 0))
              None None with_caller_dicts out.2)
    as (Href & Hlook & _).
  - simpl. lia.
  - discriminate.
  - discriminate.
  - exact Hrun.
  - split; [vm_compute; reflexivity|]. split; [exact Href|exact Hlook].
Defined.

Lemma str_entanglement_layer_fails_witness :
  build_rotation_block construct unresolved
  = (inr [ry 2 0; rz 2 1], with_world unresolved 2%nat) ∧
  build_layers construct unresolved
  = (inl (TypeError "'str' object is not callable"),
     with_world unresolved 2%nat).
Proof.
  assert (build_rotation_block construct unresolved
          = (inr [ry 2 0; rz 2 1], with_world unresolved 2%nat))
    as Hrot by (vm_compute; reflexivity).
  split; [exact Hrot|].
  destruct (str_entanglement_layer_fails construct unresolved "star" CNOT []
              eq_refl eq_refl ltac:(simpl; lia)) as [_ Herr].
  apply (Herr _ _ Hrot); vm_compute; reflexivity.
Defined.

Lemma TwoLocal_unknown_topology_raises_witness :
  ∃ e,
    (TwoLocal_init construct wire_count [RY] [CNOT] (Some 2) None
       (Some (Str "star")) None None None None start).1 = inl e.
Proof.
  apply TwoLocal_unknown_topology_raises.
  - intros Hin. repeat (apply elem_of_cons in Hin as [[=]|Hin]).
    by apply elem_of_nil in Hin.
  - done.
  - simpl. lia.
Defined.

Lemma RealAmplitudes_layers_witness :
  let out := RealAmplitudes_init construct wire_count (Some 2) None None None
               start in
  out.1 = inr tt ∧
  length (layers_all (self out.2)) = 7%nat ∧
  (∀ b, layers_all (self out.2) !! 3%nat = Some b →
        made_by construct
          (Constructed (Class Op2QAllLayer) CNOT 2 reversed) b) ∧
  (∀ b, layers_all (self out.2) !! 6%nat = Some b →
        made_by construct
          (Constructed (Class Op1QAllLayer) RY 2
             {[ "has_params" := VBool true; "trainable" := VBool true ]}) b).
Proof.
  intros out.
  assert (out = (inr tt, out.2)) as Hrun by (vm_compute; reflexivity).
  destruct (RealAmplitudes_layers construct wire_count (Some 2) None None
              None start out.2 Hrun) as [Hlen Halt].
  split; [vm_compute; reflexivity|]. split; [exact Hlen|]. split.
  - intros b Hb. exact (Halt 3%nat b Hb).
  - intros b Hb. exact (Halt 6%nat b Hb).
Defined.

Lemma ExcitationPreserving_layers_witness :
  let out := ExcitationPreserving_init construct wire_count (Some 2) None
               None None start in
  out.1 = inr tt ∧
  length (layers_all (self out.2)) = 10%nat ∧
  heap_lookup (dicts out.2) (entanglement_layer_params (self out.2))
  =
    {[ "has_params" := VBool true; "trainable" := VBool true ]}.
Proof.
  intros out.
  assert (out = (inr tt, out.2)) as Hrun by (vm_compute; reflexivity).
  destruct (ExcitationPreserving_layers construct wire_count (Some 2) None
              None None start out.2 Hrun)
    as (_ & _ & _ & Hlen & Hkw).
  split; [vm_compute; reflexivity|]. split; [exact Hlen|].
  apply Hkw; discriminate.
Defined.

Lemma EfficientSU2_layers_witness :
  let out := EfficientSU2_init construct wire_count (Some 2) None (Some 2)
               None start in
  out.1 = inr tt ∧
  length (layers_all (self out.2)) = 8%nat ∧
  ∀ b, layers_all (self out.2) !! 7%nat = Some b →
       made_by construct
         (Constructed (Class Op1QAllLayer) RZ 2
      {[ "has_params" := VBool true; "trainable" := VBool true ]}) b.
Proof.
  intros out.
  assert (out = (inr tt, out.2)) as Hrun by (vm_compute; reflexivity).
  destruct (EfficientSU2_layers construct wire_count (Some 2) None (Some 2)
              None start out.2 Hrun) as [Hlen Hat].
  split; [vm_compute; reflexivity|]. split; [exact Hlen|].
  intros b Hb. exact (Hat 7%nat b Hb).
Defined.

Lemma NLocal_init_configuration_witness :
  let out :=
    NLocal_init construct wire_count [RY] [CNOT] (Some 2) None None None
      None None None None start in
  out.1 = inr tt ∧
  rotation_layer_params (self out.2) = NLocal_rotation_default ∧
  entanglement_layer_params (self out.2) = NLocal_entanglement_default ∧
  reps (self out.2) = 1 ∧
  dicts out.2 = dicts start ∧
  length (layers_all (self out.2)) = 3%nat.
Proof.
  intros out.
  assert (out = (inr tt, out.2)) as Hrun by (vm_compute; reflexivity).
  destruct (NLocal_init_configuration construct wire_count [RY] [CNOT]
              (Some 2) None None None None None None None start out.2 Hrun)
    as (_ & _ & Hrp & _ & _ & Hep & _ & _ & Hreps & Hdicts & _ & _).
  split; [vm_compute; reflexivity|]. split; [exact Hrp|].
  split; [exact Hep|]. split; [exact Hreps|]. split; [exact Hdicts|].
  vm_compute. reflexivity.
Defined.
